(** * Sales anomaly detection (src/ai/anomaly.py): a shallow embedding

    The module wraps scikit-learn's [StandardScaler] and [IsolationForest]
    in a small class, [SalesAnomalyDetector], with four methods
    ([prepare_features], [fit], [predict], [get_anomaly_summary]) and a
    convenience function [detect_sales_anomalies].

    Modelling choices:
    - a pandas float64 cell is a binary64 [float] (Rocq's primitive floats),
      so [x / 0], NaN and [np.abs] behave as they do in numpy;
    - a [DataFrame] is the list of its rows, each row a finite map from
      column name to cell ([gmap string value]); positional order is list
      order;
    - a Python exception is the [Raise] branch of [result];
    - scikit-learn, [np.log1p] and pandas' [Series.mean] are not code of
      this module: they are the fields of the classes [Numpy] and
      [Sklearn], and what a proof needs from them is stated as an explicit
      contract ([predict_thresholds_decision], [seeded_fit_ignores_rng]). *)

From Stdlib Require Import ZArith Floats Uint63 Lia OrdersEx.
From stdpp Require Import gmap strings list sorting.

Open Scope Z_scope.

(** ** binary64 cells *)

(** [np.isnan] *)
Definition is_nan (x : float) : bool := negb (PrimFloat.eqb x x).

(** [np.isfinite]: neither NaN nor an infinity *)
Definition isfinite (x : float) : bool :=
  negb (is_nan x) && negb (PrimFloat.eqb (abs x) infinity).

(** int64 to float64, rounding to nearest; [z] is within the int64 range. *)
Definition float_of_Z (z : Z) : float :=
  if (0 <=? z)%Z then of_uint63 (Uint63.of_Z z)
  else if (z =? -9223372036854775808)%Z then (-0x1p63)%float
  else (- of_uint63 (Uint63.of_Z (- z)))%float.

Definition float_of_nat (n : nat) : float := float_of_Z (Z.of_nat n).

(** ** Python exceptions and results *)

Inductive exn :=
  | KeyError (column : string)
  | ValueError (msg : string)
  | TypeError (msg : string)
  | AttributeError (msg : string)
  | ZeroDivisionError.

Inductive result (A : Type) :=
  | Ok (a : A)
  | Raise (e : exn).
Arguments Ok {A} a.
Arguments Raise {A} e.

#[global] Instance result_ret : MRet result := fun _ a => Ok a.
#[global] Instance result_bind : MBind result := fun _ _ f m =>
  match m with Ok a => f a | Raise e => Raise e end.

(** Apply a fallible function to every element, left to right, stopping
    at the first exception. *)
Fixpoint traverse {A B} (f : A -> result B) (l : list A) : result (list B) :=
  match l with
  | [] => Ok []
  | x :: xs => y ← f x; ys ← traverse f xs; Ok (y :: ys)
  end.

(** ** Cells, rows and frames *)

(** A pandas [Timestamp], at the granularity the features read. *)
Record Timestamp := { ts_year : Z; ts_month : Z; ts_day : Z }.

Inductive value :=
  | VFloat (f : float)
  | VInt (z : Z)
  | VStr (s : string)
  | VBool (b : bool)
  | VDate (t : Timestamp)
  | VNull.

Abbreviation Row := (gmap string value).
Abbreviation DataFrame := (list (gmap string value)).

(** [df[c]]: the column [c], top to bottom; [KeyError] when absent.  A
    frame without rows is taken to have every column. *)
Definition column (c : string) (df : DataFrame) : result (list value) :=
  traverse (fun r : Row => match r !! c with
                           | Some v => Ok v
                           | None => Raise (KeyError c)
                           end) df.

(** [df[c] = vals] with [vals] a numpy array: positional assignment, which
    overwrites a column of that name or adds it; [ValueError] when the
    lengths differ. *)
Definition set_column (c : string) (vals : list value) (df : DataFrame)
  : result DataFrame :=
  if decide (length vals = length df)
  then Ok (zip_with (fun (r : Row) v => <[c := v]> r) df vals)
  else Raise (ValueError "Length of values does not match length of index").

(** A numeric cell read as float64; a missing cell is NaN. *)
Definition as_number (v : value) : result float :=
  match v with
  | VFloat f => Ok f
  | VInt z => Ok (float_of_Z z)
  | VBool b => Ok (if b then 1%float else 0%float)
  | VNull => Ok nan
  | VStr _ | VDate _ =>
      Raise (TypeError "unsupported operand type(s) for numeric column")
  end.

(** A categorical cell: a string, or missing. *)
Definition as_category (v : value) : result (option string) :=
  match v with
  | VStr s => Ok (Some s)
  | VNull => Ok None
  | _ => Raise (TypeError "categorical column holds a non-string value")
  end.

(** A datetime cell ([.dt] accessor): a timestamp, or NaT. *)
Definition as_datetime (v : value) : result (option Timestamp) :=
  match v with
  | VDate t => Ok (Some t)
  | VNull => Ok None
  | _ => Raise (AttributeError "Can only use .dt accessor with datetimelike values")
  end.

(** A boolean cell (a boolean mask). *)
Definition as_bool (v : value) : result bool :=
  match v with
  | VBool b => Ok b
  | _ => Raise (ValueError "Cannot mask with non-boolean array")
  end.

(** ** Calendar fields of a timestamp ([Series.dt]) *)

(** Days since 1970-01-01 in the proleptic Gregorian calendar. *)
Definition days_from_civil (t : Timestamp) : Z :=
  let y := if ts_month t <=? 2 then ts_year t - 1 else ts_year t in
  let era := y / 400 in
  let yoe := y - era * 400 in
  let mp := if ts_month t <=? 2 then ts_month t + 9 else ts_month t - 3 in
  let doy := (153 * mp + 2) / 5 + ts_day t - 1 in
  let doe := yoe * 365 + yoe / 4 - yoe / 100 + doy in
  era * 146097 + doe - 719468.

(** [.dt.dayofweek]: Monday is 0, Sunday is 6. *)
Definition dayofweek (t : Timestamp) : Z := (days_from_civil t + 3) mod 7.

(** [.dt.quarter] *)
Definition quarter (t : Timestamp) : Z := (ts_month t - 1) / 3 + 1.

(** A calendar field of a possibly missing timestamp: NaT gives NaN. *)
Definition dt_field (f : Timestamp -> Z) (d : option Timestamp) : float :=
  match d with Some t => float_of_Z (f t) | None => nan end.

(** [day_of_week.isin([5, 6]).astype(int)]: a NaN day is in no list. *)
Definition is_weekend (d : option Timestamp) : float :=
  match d with
  | Some t => if bool_decide (dayofweek t ∈ [5; 6]) then 1%float else 0%float
  | None => 0%float
  end.

(** ** Categorical encoding ([pd.Categorical(col).codes]) *)

(** Python compares [str] by code point; on UTF-8 bytes that is the
    bytewise lexicographic order of [String_as_OT.compare]. *)
Fixpoint insert_category (s : string) (cats : list string) : list string :=
  match cats with
  | [] => [s]
  | c :: cs =>
      match String_as_OT.compare s c with
      | Lt => s :: c :: cs
      | Eq => c :: cs
      | Gt => c :: insert_category s cs
      end
  end.

(** [.categories]: the distinct non-missing values of the column, sorted. *)
Definition categories (col : list (option string)) : list string :=
  foldr (fun v acc => match v with
                      | Some s => insert_category s acc
                      | None => acc
                      end) [] col.

Fixpoint position (s : string) (cats : list string) : option nat :=
  match cats with
  | [] => None
  | c :: cs => if String.eqb s c then Some O else S <$> position s cs
  end.

(** The code of one cell under a category list: its position, and -1
    for a missing cell or a value outside the list. *)
Definition code_of (cats : list string) (v : option string) : Z :=
  match v with
  | Some s => match position s cats with
              | Some i => Z.of_nat i
              | None => -1
              end
  | None => -1
  end.

(** [pd.Categorical(col).codes]: the categories are those of [col] itself. *)
Definition categorical_codes (col : list (option string)) : list Z :=
  map (code_of (categories col)) col.

(** ** External numerics *)

(** [np.log1p] (libm) and pandas' [Series.mean] (skipping NaN; its order
    of summation is the library's business). *)
Class Numpy := {
  log1p : float -> float;
  series_mean : list float -> float;
}.

Abbreviation Matrix := (list (list float)).

(** scikit-learn's two estimators, as objects with state.  [Rng] is
    numpy's process-wide random state, which an estimator built with
    [random_state=None] draws from. *)
Class Sklearn := {
  Scaler : Type;
  Forest : Type;
  Rng : Type;
  (** [StandardScaler()] *)
  StandardScaler : Scaler;
  (** [IsolationForest(contamination=c, random_state=rs)] *)
  IsolationForest : float -> option Z -> Forest;
  (** [scaler.fit_transform(X)]: the scaler afterwards, and the scaled
      matrix or the exception raised *)
  scaler_fit_transform : Scaler -> Matrix -> Scaler * result Matrix;
  (** [scaler.transform(X)] *)
  scaler_transform : Scaler -> Matrix -> result Matrix;
  (** [forest.fit(X)]: the forest afterwards, and whether it raised *)
  forest_fit : Rng -> Forest -> Matrix -> Forest * result unit;
  (** [forest.decision_function(X)] *)
  decision_function : Forest -> Matrix -> result (list float);
  (** [forest.predict(X)]: +1 for inliers, -1 for outliers *)
  forest_predict : Forest -> Matrix -> result (list Z);
}.

(** scikit-learn's [IsolationForest.predict] labels a sample -1 exactly
    when its [decision_function] is below 0. *)
Definition predict_thresholds_decision (sk : Sklearn) : Prop :=
  forall (f : Forest) (X : Matrix),
    forest_predict f X =
    (s ← decision_function f X;
     Ok (map (fun x : float => if (x <? 0)%float then -1 else 1) s)).

(** An estimator built with an integer [random_state] reseeds from it on
    every [fit] and does not read the process-wide random state. *)
Definition seeded_fit_ignores_rng (sk : Sklearn) : Prop :=
  forall (c : float) (seed : Z) (g1 g2 : Rng) (X : Matrix),
    forest_fit g1 (IsolationForest c (Some seed)) X =
    forest_fit g2 (IsolationForest c (Some seed)) X.

(** ** [SalesAnomalyDetector.prepare_features] *)

(** [fillna(0)] on one cell: NaN becomes 0, every other value stays. *)
Definition fillna0 (x : float) : float := if is_nan x then 0%float else x.

(** Rows of a frame given by its columns. *)
Definition rows_of (n : nat) (cols : list (list float)) : Matrix :=
  map (fun i => map (fun col => nth i col nan) cols) (seq 0 n).

(** Position of each feature in [feature_columns]. *)
Definition sales_per_quantity_ix : nat := 6.
Definition product_encoded_ix : nat := 8.
Definition country_encoded_ix : nat := 9.
Definition status_encoded_ix : nat := 10.

Definition prepare_features `{Numpy} (df : DataFrame) : result Matrix :=
  dates ← column "ORDERDATE" df ≫= traverse as_datetime;
  let day_of_week := map (dt_field dayofweek) dates in
  let month := map (dt_field ts_month) dates in
  let quarter := map (dt_field quarter) dates in
  let is_weekend := map is_weekend dates in
  sales_cells ← column "SALES" df;
  quantity_cells ← column "QUANTITYORDERED" df;
  sales ← traverse as_number sales_cells;
  quantity ← traverse as_number quantity_cells;
  let sales_per_quantity := zip_with PrimFloat.div sales quantity in
  let log_sales := map log1p sales in
  product ← column "PRODUCTLINE" df ≫= traverse as_category;
  country ← column "COUNTRY" df ≫= traverse as_category;
  status ← column "STATUS" df ≫= traverse as_category;
  let product_encoded := map float_of_Z (categorical_codes product) in
  let country_encoded := map float_of_Z (categorical_codes country) in
  let status_encoded := map float_of_Z (categorical_codes status) in
  let feature_columns :=
    [sales; quantity; day_of_week; month; quarter; is_weekend;
     sales_per_quantity; log_sales;
     product_encoded; country_encoded; status_encoded] in
  Ok (map (map fillna0) (rows_of (length df) feature_columns)).

(** ** The detector object *)

Record SalesAnomalyDetector `{Sklearn} := {
  contamination : float;
  isolation_forest : Forest;
  scaler : Scaler;
  is_fitted : bool;
}.

(** [SalesAnomalyDetector.__init__] *)
Definition init `{Sklearn} (contamination : float) : SalesAnomalyDetector :=
  {| contamination := contamination;
     isolation_forest := IsolationForest contamination (Some 42);
     scaler := StandardScaler;
     is_fitted := false |}.

(** [SalesAnomalyDetector.fit]: the detector after the call, and whether
    the call raised.  The two estimators are mutated in place, so what
    they became is kept also when a later step raises. *)
Definition fit `{Numpy} `{Sklearn} (g : Rng) (self : SalesAnomalyDetector)
    (df : DataFrame) : SalesAnomalyDetector * result unit :=
  match prepare_features df with
  | Raise e => (self, Raise e)
  | Ok features =>
      let '(scaler', scaled) := scaler_fit_transform (scaler self) features in
      let self1 :=
        {| contamination := contamination self;
           isolation_forest := isolation_forest self;
           scaler := scaler';
           is_fitted := is_fitted self |} in
      match scaled with
      | Raise e => (self1, Raise e)
      | Ok features_scaled =>
          let '(forest', fitted) :=
            forest_fit g (isolation_forest self1) features_scaled in
          let self2 :=
            {| contamination := contamination self1;
               isolation_forest := forest';
               scaler := scaler self1;
               is_fitted := is_fitted self1 |} in
          match fitted with
          | Raise e => (self2, Raise e)
          | Ok _ =>
              ({| contamination := contamination self2;
                  isolation_forest := isolation_forest self2;
                  scaler := scaler self2;
                  is_fitted := true |}, Ok tt)
          end
      end
  end.

(** [SalesAnomalyDetector.predict] *)
Definition predict `{Numpy} `{Sklearn} (self : SalesAnomalyDetector)
    (df : DataFrame) : result DataFrame :=
  if negb (is_fitted self)
  then Raise (ValueError "Model must be fitted before making predictions")
  else
    features ← prepare_features df;
    features_scaled ← scaler_transform (scaler self) features;
    anomaly_scores ← decision_function (isolation_forest self) features_scaled;
    anomaly_predictions ← forest_predict (isolation_forest self) features_scaled;
    results ← set_column "anomaly_score" (map VFloat anomaly_scores) df;
    results ← set_column "is_anomaly"
                (map (fun p : Z => VBool (p =? -1)) anomaly_predictions) results;
    results ← set_column "anomaly_severity"
                (map (fun s => VFloat (abs s)) anomaly_scores) results;
    Ok results.

(** ** [SalesAnomalyDetector.get_anomaly_summary] *)

(** [results_df[results_df['is_anomaly']]]: the rows whose mask is true,
    in their order. *)
Fixpoint boolean_index (df : DataFrame) (mask : list bool) : DataFrame :=
  match df, mask with
  | r :: df', b :: mask' =>
      if b then r :: boolean_index df' mask' else boolean_index df' mask'
  | _, _ => []
  end.

(** [len(a) / len(b)] on Python ints. *)
Definition py_truediv (a b : nat) : result float :=
  if decide (b = O) then Raise ZeroDivisionError
  else Ok (float_of_nat a / float_of_nat b)%float.

(** [Series.min()]: the least value that is not NaN, NaN when there is
    none. *)
Definition series_min (xs : list float) : float :=
  match filter (fun x => is_nan x = false) xs with
  | [] => nan
  | x :: rest => foldl (fun m y => if (y <? m)%float then y else m) x rest
  end.

(** [Series.value_counts().to_dict()]: occurrences of each value that is
    not missing. *)
Definition value_counts (col : list (option string)) : gmap string nat :=
  foldr (fun v m => match v with
                    | Some s => <[s := S (default O (m !! s))]> m
                    | None => m
                    end) ∅ col.

(** Stable insertion by key into a list sorted ascending: the new entry
    goes before the first entry whose key is not smaller. *)
Fixpoint insert_by_score {A} (x : float * A) (l : list (float * A))
  : list (float * A) :=
  match l with
  | [] => [x]
  | y :: l' =>
      if (x.1 <=? y.1)%float then x :: y :: l' else y :: insert_by_score x l'
  end.

Definition sort_by_score {A} (l : list (float * A)) : list (float * A) :=
  foldr insert_by_score [] l.

(** [nsmallest(n, col)] with the default [keep='first']: rows with a
    score, ascending, equal scores in their original order; rows whose
    score is NaN come after them; the first [n] are kept. *)
Definition nsmallest {A} (n : nat) (l : list (float * A)) : list (float * A) :=
  take n (sort_by_score (filter (fun x => is_nan x.1 = false) l)
          ++ filter (fun x => is_nan x.1 = true) l).

(** One entry of [top_anomalous_orders]. *)
Record TopOrder := {
  ORDERNUMBER : value;
  SALES : value;
  anomaly_score : float;
}.

(** The keys of the summary that only the non-empty case has. *)
Record AnomalyDetail := {
  avg_anomaly_score : float;
  max_anomaly_score : float;
  anomaly_by_product : gmap string nat;
  anomaly_by_country : gmap string nat;
  anomaly_by_status : gmap string nat;
  top_anomalous_orders : list TopOrder;
}.

Record Summary := {
  total_anomalies : nat;
  anomaly_rate : float;
  message : option string;
  detail : option AnomalyDetail;
}.

(** A row paired with its [anomaly_score] read as a number. *)
Definition scored (r : Row) : result (float * Row) :=
  match r !! "anomaly_score" with
  | Some v => s ← as_number v; Ok (s, r)
  | None => Raise (KeyError "anomaly_score")
  end.

(** [[['ORDERNUMBER', 'SALES', 'anomaly_score']].to_dict('records')] on
    one row. *)
Definition top_order (x : float * Row) : result TopOrder :=
  match x.2 !! "ORDERNUMBER", x.2 !! "SALES" with
  | Some o, Some s =>
      Ok {| ORDERNUMBER := o; SALES := s; anomaly_score := x.1 |}
  | None, _ => Raise (KeyError "ORDERNUMBER")
  | _, None => Raise (KeyError "SALES")
  end.

Definition get_anomaly_summary `{Numpy} (results_df : DataFrame)
  : result Summary :=
  mask ← column "is_anomaly" results_df ≫= traverse as_bool;
  let anomalies := boolean_index results_df mask in
  if decide (length anomalies = O)
  then Ok {| total_anomalies := 0;
             anomaly_rate := 0%float;
             message := Some "No anomalies detected";
             detail := None |}
  else
    ratio ← py_truediv (length anomalies) (length results_df);
    rows ← traverse scored anomalies;
    let scores := rows.*1 in
    product ← column "PRODUCTLINE" anomalies ≫= traverse as_category;
    country ← column "COUNTRY" anomalies ≫= traverse as_category;
    status ← column "STATUS" anomalies ≫= traverse as_category;
    top ← traverse top_order (nsmallest 5 rows);
    Ok {| total_anomalies := length anomalies;
          anomaly_rate := (ratio * 100)%float;
          message := None;
          detail := Some
            {| avg_anomaly_score := series_mean scores;
               max_anomaly_score := series_min scores;
               anomaly_by_product := value_counts product;
               anomaly_by_country := value_counts country;
               anomaly_by_status := value_counts status;
               top_anomalous_orders := top |} |}.

(** ** [detect_sales_anomalies] *)

Definition detect_sales_anomalies `{Numpy} `{Sklearn} (g : Rng)
    (df : DataFrame) (contamination : float) : result (DataFrame * Summary) :=
  let detector := init contamination in
  let '(detector, fitted) := fit g detector df in
  match fitted with
  | Raise e => Raise e
  | Ok _ =>
      results ← predict detector df;
      summary ← get_anomaly_summary results;
      Ok (results, summary)
  end.

(** * The insights report (src/ai/insights.py)

    An insight is a Python dict from strings to strings.  The three
    generators build their texts with pandas aggregates and float
    formatting; [generate_all_insights] and [format_insights_report] only
    combine what the generators return, and are embedded here.
    [str.title] is Python's, and the time stamp is the value of
    [datetime.now().strftime(...)] at the call. *)

Abbreviation Insight := (gmap string string).

Class Python := {
  str_title : string -> string;
}.

Definition nl : string := String (Ascii.ascii_of_nat 10) EmptyString.

(** [insight[key]] *)
Definition item (x : Insight) (key : string) : result string :=
  match x !! key with Some v => Ok v | None => Raise (KeyError key) end.

(** [impact_order.get(impact, 4)] *)
Definition impact_order (impact : string) : nat :=
  if String.eqb impact "critical" then 0
  else if String.eqb impact "high" then 1
  else if String.eqb impact "medium" then 2
  else if String.eqb impact "low" then 3
  else 4.

(** Stable insertion by rank into a list sorted ascending. *)
Fixpoint insert_by_rank {A} (x : nat * A) (l : list (nat * A)) : list (nat * A) :=
  match l with
  | [] => [x]
  | y :: l' => if (x.1 <=? y.1)%nat then x :: y :: l' else y :: insert_by_rank x l'
  end.

(** [list.sort(key=...)]: the keys are computed first, one per element in
    order, and the sort is stable. *)
Definition sort_by_impact (all_insights : list Insight) : result (list Insight) :=
  keyed ← traverse (fun x => impact ← item x "impact";
                             Ok (impact_order impact, x)) all_insights;
  Ok (foldr insert_by_rank [] keyed).*2.

(** [SalesInsightsGenerator.generate_all_insights], given what the three
    generators return (or raise) on the batch. *)
Definition generate_all_insights
    (trend product customer : result (list Insight)) : result (list Insight) :=
  trend_insights ← trend;
  product_insights ← product;
  customer_insights ← customer;
  sort_by_impact (trend_insights ++ product_insights ++ customer_insights).

(** [insight_types[insight_type].append(insight)], creating the entry at
    the end of the dict when the type is new. *)
Fixpoint add_to_type (insight_type : string) (x : Insight)
    (insight_types : list (string * list Insight)) : list (string * list Insight) :=
  match insight_types with
  | [] => [(insight_type, [x])]
  | (t, xs) :: rest =>
      if String.eqb insight_type t then (t, xs ++ [x]) :: rest
      else (t, xs) :: add_to_type insight_type x rest
  end.

(** The first loop of [format_insights_report]. *)
Fixpoint group_by_type (insight_types : list (string * list Insight))
    (insights : list Insight) : result (list (string * list Insight)) :=
  match insights with
  | [] => Ok insight_types
  | x :: rest =>
      insight_type ← item x "type";
      group_by_type (add_to_type insight_type x insight_types) rest
  end.

Definition impact_emoji (impact : string) : string :=
  if String.eqb impact "critical" then "🚨"
  else if String.eqb impact "high" then "⚠️"
  else if String.eqb impact "medium" then "📊"
  else if String.eqb impact "low" then "ℹ️"
  else "📋".

(** The body of the inner loop: the report with one insight appended. *)
Definition append_insight `{Python} (report : string) (x : Insight) : result string :=
  impact ← item x "impact";
  let report := report +:+ "### " +:+ impact_emoji impact +:+ " " in
  title ← item x "title";
  let report := report +:+ title +:+ nl in
  insight ← item x "insight";
  let report := report +:+ "**Insight:** " +:+ insight +:+ nl +:+ nl in
  recommendation ← item x "recommendation";
  let report := report +:+ "**Recommendation:** " +:+ recommendation +:+ nl +:+ nl in
  impact ← item x "impact";
  let report := report +:+ "**Impact Level:** " +:+ str_title impact +:+ nl +:+ nl in
  Ok (report +:+ "---" +:+ nl +:+ nl).

Fixpoint append_insights `{Python} (report : string) (xs : list Insight)
  : result string :=
  match xs with
  | [] => Ok report
  | x :: rest => report ← append_insight report x; append_insights report rest
  end.

(** The second loop: one section per type. *)
Fixpoint append_sections `{Python} (report : string)
    (insight_types : list (string * list Insight)) : result string :=
  match insight_types with
  | [] => Ok report
  | (insight_type, type_insights) :: rest =>
      let report := report +:+ "## " +:+ str_title insight_type +:+ " Insights" +:+ nl +:+ nl in
      report ← append_insights report type_insights;
      append_sections report rest
  end.

(** [SalesInsightsGenerator.format_insights_report] *)
Definition format_insights_report `{Python} (now : string)
    (insights : list Insight) : result string :=
  match insights with
  | [] => Ok "No insights generated."
  | _ =>
      let report := "# Sales Data Insights Report" +:+ nl +:+ nl in
      let report := report +:+ "Generated on: " +:+ now +:+ nl +:+ nl in
      insight_types ← group_by_type [] insights;
      append_sections report insight_types
  end.

(** [generate_sales_insights] *)
Definition generate_sales_insights `{Python} (now : string)
    (trend product customer : result (list Insight))
  : result (list Insight * string) :=
  insights ← generate_all_insights trend product customer;
  report ← format_insights_report now insights;
  Ok (insights, report).

(** The "Customer Loyalty" insight as [generate_customer_insights] builds
    it (lines 135-141), with its formatted sentence. *)
Definition loyalty_insight (sentence : string) : Insight :=
  {[ "type" := "customer";
     "title" := "Customer Loyalty";
     "insight" := sentence;
     "recommight" := "Implement customer retention programs and loyalty incentives";
     "impact" := "high" ]}.

(** ** Stand-ins for the external libraries

    Small executable instances of [Numpy] and [Sklearn], used to run the
    model on concrete batches.  The scaler standardises each column by its
    mean and standard deviation; the forest stand-in scores a row by how
    far its most extreme standardised feature lies from two standard
    deviations.  Both validate their input the way scikit-learn's
    [check_array] does: no empty matrix, no infinity, and for the forest
    no NaN. *)
Module Toy.

Definition fsum (xs : list float) : float := foldl PrimFloat.add 0%float xs.

Definition mean (xs : list float) : float :=
  let ys := filter (fun x => is_nan x = false) xs in
  (fsum ys / float_of_nat (length ys))%float.

(** [log1p] is replaced by the identity: no statement depends on its
    values. *)
Definition numpy : Numpy :=
  {| log1p := fun x => x; series_mean := mean |}.

Definition is_inf (x : float) : bool := PrimFloat.eqb (abs x) infinity.

Definition check_array (allow_nan : bool) (X : Matrix) : result unit :=
  if decide (length X = O)
  then Raise (ValueError "Found array with 0 sample(s)")
  else if existsb (existsb (fun x => is_inf x || (negb allow_nan && is_nan x))) X
  then Raise (ValueError "Input contains NaN or infinity")
  else Ok tt.

(** Per-column mean and scale; a zero scale is replaced by 1. *)
Definition column_stats (X : Matrix) (j : nat) : float * float :=
  let col := map (fun row => nth j row 0%float) X in
  let m := (fsum col / float_of_nat (length col))%float in
  let v := (fsum (map (fun x => (x - m) * (x - m)) col)
            / float_of_nat (length col))%float in
  let s := PrimFloat.sqrt v in
  (m, if (s =? 0)%float then 1%float else s).

Definition standardise (stats : list (float * float)) (X : Matrix) : Matrix :=
  map (fun row => zip_with (fun x ms => ((x - ms.1) / ms.2)%float) row stats) X.

Definition fit_transform (sc : option (list (float * float))) (X : Matrix)
  : option (list (float * float)) * result Matrix :=
  match check_array true X with
  | Raise e => (None, Raise e)
  | Ok _ =>
      let stats := map (column_stats X) (seq 0 (length (hd [] X))) in
      (Some stats, Ok (standardise stats X))
  end.

Definition transform (sc : option (list (float * float))) (X : Matrix)
  : result Matrix :=
  match sc with
  | None => Raise (ValueError "This StandardScaler instance is not fitted yet")
  | Some stats => _ ← check_array true X; Ok (standardise stats X)
  end.

Record forest := {
  f_contamination : float;
  f_random_state : option Z;
  f_stream : option Z;
}.

Definition fit_forest (g : Z) (f : forest) (X : Matrix) : forest * result unit :=
  match check_array false X with
  | Raise e => (f, Raise e)
  | Ok _ =>
      ({| f_contamination := f_contamination f;
          f_random_state := f_random_state f;
          f_stream := Some (default g (f_random_state f)) |}, Ok tt)
  end.

Definition row_score (row : list float) : float :=
  (2 - foldl (fun m x => if (m <? abs x)%float then abs x else m) 0 row)%float.

Definition decision (f : forest) (X : Matrix) : result (list float) :=
  match f_stream f with
  | None => Raise (ValueError "This IsolationForest instance is not fitted yet")
  | Some _ => _ ← check_array false X; Ok (map row_score X)
  end.

Definition predict_forest (f : forest) (X : Matrix) : result (list Z) :=
  s ← decision f X;
  Ok (map (fun x : float => if (x <? 0)%float then -1 else 1) s).

Definition sklearn : Sklearn :=
  {| Scaler := option (list (float * float));
     Forest := forest;
     Rng := Z;
     StandardScaler := None;
     IsolationForest := fun c rs =>
       {| f_contamination := c; f_random_state := rs; f_stream := None |};
     scaler_fit_transform := fit_transform;
     scaler_transform := transform;
     forest_fit := fit_forest;
     decision_function := decision;
     forest_predict := predict_forest |}.

End Toy.

(** ** Vocabulary of the statements *)

(** The entry of a feature matrix at row [i], column [j]. *)
Definition feature (X : Matrix) (i j : nat) : option float :=
  row ← X !! i; row !! j.

(** What [predict] adds to one row, given its score and its label. *)
Definition annotate (r : Row) (score : float) (label : Z) : Row :=
  <["anomaly_severity" := VFloat (abs score)]>
    (<["is_anomaly" := VBool (label =? -1)]>
       (<["anomaly_score" := VFloat score]> r)).

(** The three encoded columns, with the raw column each is computed from. *)
Definition encoded_columns : list (string * nat) :=
  [("PRODUCTLINE", product_encoded_ix);
   ("COUNTRY", country_encoded_ix);
   ("STATUS", status_encoded_ix)].

(** The row is flagged. *)
Definition flagged (r : Row) : bool :=
  match r !! "is_anomaly" with Some (VBool true) => true | _ => false end.

(** The flagged rows of a result set, in input order. *)
Definition anomalous (results_df : DataFrame) : DataFrame :=
  filter (fun r => flagged r = true) results_df.

Definition score_of (r : Row) : float :=
  match r !! "anomaly_score" with Some (VFloat s) => s | _ => nan end.

Definition category_of (name : string) (r : Row) : option string :=
  match r !! name with Some (VStr s) => Some s | _ => None end.





Definition is_category (v : value) : bool :=
  match v with VStr _ | VNull => true | _ => false end.

(** The order fields the summary reads: the three categories, each a
    string or missing, an identifier and a sale amount. *)
Definition order_row (r : Row) : bool :=
  forallb (fun name => match r !! name with
                       | Some v => is_category v
                       | None => false
                       end) ["PRODUCTLINE"; "COUNTRY"; "STATUS"]
  && bool_decide (is_Some (r !! "ORDERNUMBER"))
  && bool_decide (is_Some (r !! "SALES")).

(** A row of a result set: an order row with a boolean flag and a float
    score, the score being a number when the row is flagged. *)
Definition result_row (r : Row) : bool :=
  match r !! "is_anomaly", r !! "anomaly_score" with
  | Some (VBool b), Some (VFloat s) =>
      (negb b || negb (is_nan s)) && order_row r
  | _, _ => false
  end.

(** A row paired with its score, as [nsmallest] ranks it. *)
Definition with_score (r : Row) : float * Row := (score_of r, r).

(** Order of scored entries, and entries whose score is a number. *)
Definition key_le {A} (x y : float * A) : Prop := (x.1 <=? y.1)%float = true.
Definition has_score {A} (x : float * A) : Prop := is_nan x.1 = false.

(** ** Sample batches *)

Definition order (number : Z) (sales : float) (quantity : Z) (date : Timestamp)
    (product country status : string) : Row :=
  {[ "ORDERNUMBER" := VInt number;
     "SALES" := VFloat sales;
     "QUANTITYORDERED" := VInt quantity;
     "ORDERDATE" := VDate date;
     "PRODUCTLINE" := VStr product;
     "COUNTRY" := VStr country;
     "STATUS" := VStr status ]}.

Definition jan (d : Z) : Timestamp := {| ts_year := 2024; ts_month := 1; ts_day := d |}.

Definition batch8 : DataFrame :=
  [ order 10100 1000 10 (jan 1) "Planes" "USA" "Shipped";
    order 10101 2000 20 (jan 2) "Ships" "UK" "Shipped";
    order 10102 3000 30 (jan 3) "Planes" "USA" "Shipped";
    order 10103 500000 20 (jan 4) "Ships" "UK" "Shipped";
    order 10104 4000 10 (jan 5) "Planes" "USA" "Shipped";
    order 10105 2500 30 (jan 8) "Ships" "UK" "Shipped";
    order 10106 1500 20 (jan 9) "Planes" "USA" "Shipped";
    order 10107 3500 10 (jan 10) "Ships" "UK" "Shipped" ].

Definition batch3 : DataFrame :=
  [ order 10100 1000 10 (jan 1) "Planes" "USA" "Shipped";
    order 10101 2000 20 (jan 6) "Ships" "UK" "Shipped";
    order 10102 500000 30 (jan 7) "Trains" "USA" "On Hold" ].

(** One order with nothing ordered, and one with nothing ordered and
    nothing paid. *)
Definition zero_quantity_batch : DataFrame :=
  [ order 10100 100 0 (jan 1) "Planes" "USA" "Shipped";
    order 10101 0 0 (jan 2) "Planes" "USA" "Shipped" ].

(** The default contamination, 0.1 as Python reads it. *)
Definition default_contamination : float := 0x1.999999999999ap-4%float.

(** A detector fitted on [batch8] with the stand-in libraries, and what it
    predicts for that batch. *)
Definition toy_detector : @SalesAnomalyDetector Toy.sklearn :=
  (@fit Toy.numpy Toy.sklearn 7 (init default_contamination) batch8).1.

Definition toy_results : DataFrame :=
  match @predict Toy.numpy Toy.sklearn toy_detector batch8 with
  | Ok results => results
  | Raise _ => []
  end.

(** The score the stand-in forest gives the fourth order of [batch8]. *)
Definition toy_score : float := (-0x1.4a9a4fc09b76cp-1)%float.

(** A later batch: an order for a line seen in [batch3] and one for a line
    that is new. *)
Definition later_batch : DataFrame :=
  [ order 10200 2000 20 (jan 11) "Ships" "UK" "Shipped";
    order 10201 3000 30 (jan 12) "Vintage Cars" "USA" "Shipped" ].

Definition toy_features (df : DataFrame) : Matrix :=
  match @prepare_features Toy.numpy df with Ok X => X | Raise _ => [] end.

Definition toy_category (name : string) (df : DataFrame) : list (option string) :=
  match column name df ≫= traverse as_category with
  | Ok col => col
  | Raise _ => []
  end.

(** A result set with seven flagged rows and equal scores among them. *)
Definition scored_order (number : Z) (score : float) (label : Z) : Row :=
  annotate (order number 1000 10 (jan 1) "Planes" "USA" "Shipped") score label.

Definition tied_results : DataFrame :=
  [ scored_order 1 (-0.25) (-1);
    scored_order 2 (-0.5) (-1);
    scored_order 3 0.5 1;
    scored_order 4 (-0.25) (-1);
    scored_order 5 (-0.125) (-1);
    scored_order 6 (-0.5) (-1);
    scored_order 7 (-0.125) (-1);
    scored_order 8 (-0.25) (-1) ].

(** ** Vocabulary of the further properties *)

Definition is_number (v : value) : bool :=
  match v with VFloat _ | VInt _ | VBool _ | VNull => true | _ => false end.

Definition is_datetime (v : value) : bool :=
  match v with VDate _ | VNull => true | _ => false end.

(** The columns [prepare_features] reads, in the order it first reads
    them. *)
Definition required_columns : list string :=
  ["ORDERDATE"; "SALES"; "QUANTITYORDERED"; "PRODUCTLINE"; "COUNTRY"; "STATUS"].

(** A record that has the six columns, each holding a cell of the kind the
    features need (or a missing cell). *)
Definition order_record (r : Row) : bool :=
  match r !! "ORDERDATE", r !! "SALES", r !! "QUANTITYORDERED",
        r !! "PRODUCTLINE", r !! "COUNTRY", r !! "STATUS" with
  | Some d, Some s, Some q, Some p, Some c, Some st =>
      is_datetime d && is_number s && is_number q
      && is_category p && is_category c && is_category st
  | _, _, _, _, _, _ => false
  end.

(** The three fields [predict] writes. *)
Definition result_fields : list string :=
  ["anomaly_score"; "is_anomaly"; "anomaly_severity"].

(** Two records hold the same cell (or both none) in each column of
    [cs]. *)
Definition agree_on (cs : list string) (r1 r2 : Row) : Prop :=
  forall c, c ∈ cs -> r1 !! c = r2 !! c.

(** ** Further samples; vocabulary of the insights report *)

(** The orders of [tied_results] before they were scored. *)
Definition plain_orders : DataFrame :=
  map (fun number => order number 1000 10 (jan 1) "Planes" "USA" "Shipped")
      [1; 2; 3; 4; 5; 6; 7; 8].

(** A batch whose second record has no order date. *)
Definition undated_batch : DataFrame :=
  [ order 10100 1000 10 (jan 6) "Planes" "USA" "Shipped";
    <["ORDERDATE" := VNull]>
      (order 10101 2000 20 (jan 7) "Ships" "UK" "Shipped") ].

(** Scoring [tied_results], which already has the result fields. *)
Definition rescored : DataFrame :=
  match @predict Toy.numpy Toy.sklearn toy_detector tied_results with
  | Ok results => results
  | Raise _ => []
  end.

(** The summary of [tied_results]. *)
Definition tied_summary : Summary :=
  match @get_anomaly_summary Toy.numpy tied_results with
  | Ok s => s
  | Raise _ =>
      {| total_anomalies := 0; anomaly_rate := 0%float;
         message := None; detail := None |}
  end.

Definition tied_detail : AnomalyDetail :=
  match detail tied_summary with
  | Some d => d
  | None =>
      {| avg_anomaly_score := nan; max_anomaly_score := nan;
         anomaly_by_product := ∅; anomaly_by_country := ∅;
         anomaly_by_status := ∅; top_anomalous_orders := [] |}
  end.

(** The sum of the counts of a frequency mapping. *)
Definition count_total (m : gmap string nat) : nat :=
  map_fold (fun _ n acc => (n + acc)%nat) O m.

(** The rank [generate_all_insights] sorts an insight by. *)
Definition rank_of (x : Insight) : nat :=
  match x !! "impact" with Some impact => impact_order impact | None => 4%nat end.

Definition rank_le (a b : Insight) : Prop := (rank_of a <= rank_of b)%nat.

(** An insight with the four keys the report reads besides the
    recommendation. *)
Definition has_entry_keys (x : Insight) : Prop :=
  is_Some (x !! "type") /\ is_Some (x !! "impact") /\
  is_Some (x !! "title") /\ is_Some (x !! "insight").

Definition ranked (x : Insight) : nat * Insight := (rank_of x, x).

(** All the insights of a grouping, section by section. *)
Definition members (insight_types : list (string * list Insight)) : list Insight :=
  concat insight_types.*2.

Definition recommended (xs : list Insight) : Prop :=
  Forall (fun x => is_Some (x !! "recommendation")) xs.

(** [str.title] on ASCII text. *)
Fixpoint ascii_title (after_cased : bool) (s : string) : string :=
  match s with
  | EmptyString => EmptyString
  | String ch rest =>
      let n := Ascii.nat_of_ascii ch in
      let lower := ((97 <=? n) && (n <=? 122))%nat in
      let upper := ((65 <=? n) && (n <=? 90))%nat in
      let ch' :=
        if lower && negb after_cased then Ascii.ascii_of_nat (n - 32)
        else if upper && after_cased then Ascii.ascii_of_nat (n + 32)
        else ch in
      String ch' (ascii_title (lower || upper) rest)
  end.

Definition toy_python : Python := {| str_title := ascii_title false |}.

Definition best_month_insight : Insight :=
  {[ "type" := "trend";
     "title" := "Monthly Performance";
     "insight" := "Best performing month: 11/2024 with $1,234.50 in sales";
     "recommendation" := "Analyze what made this month successful and replicate strategies";
     "impact" := "high" ]}.

Definition underperformer_insight : Insight :=
  {[ "type" := "product";
     "title" := "Product Performance";
     "insight" := "'Trains' is underperforming with only 2.1% of total sales";
     "recommendation" := "Consider discontinuing or rebranding this product line";
     "impact" := "medium" ]}.

Definition decline_insight : Insight :=
  {[ "type" := "trend";
     "title" := "Year-over-Year Decline";
     "insight" := "Sales declined by 3.2% compared to previous year";
     "recommendation" := "Urgent action needed to reverse declining trend";
     "impact" := "critical" ]}.

Definition sample_all_insights : list Insight :=
  match generate_all_insights (Ok [best_month_insight; decline_insight])
          (Ok [underperformer_insight])
          (Ok [loyalty_insight "Only 12.5% of customers make repeat purchases"]) with
  | Ok l => l
  | Raise _ => []
  end.

(** The fixed head of a report. *)
Definition report_head (now : string) : string :=
  ("# Sales Data Insights Report" +:+ nl +:+ nl)
  +:+ "Generated on: " +:+ now +:+ nl +:+ nl.

(** A section holds, in input order, exactly the insights of its type,
    and there is at least one. *)
Definition section_of (insights : list Insight)
    (g : string * list Insight) : Prop :=
  g.2 <> [] /\ g.2 = filter (fun x => x !! "type" = Some g.1) insights.

Definition typed_in (keys : list string) (x : Insight) : Prop :=
  exists t, x !! "type" = Some t /\ t ∈ keys.

Definition sample_report_text : string :=
  match @format_insights_report toy_python "2024-11-30 09:00:00"
          [best_month_insight; underperformer_insight; decline_insight] with
  | Ok report => report
  | Raise _ => ""
  end.


(** * Proofs *)

(** ** binary64 order facts *)

Module FloatOrder.

Ltac cmp_cases :=
  repeat match goal with
  | |- context [Z.compare ?a ?b] => destruct (Z.compare_spec a b)
  | H : context [Z.compare ?a ?b] |- _ => destruct (Z.compare_spec a b)
  | |- context [Pos.compare ?a ?b] => destruct (Pos.compare_spec a b)
  | H : context [Pos.compare ?a ?b] |- _ => destruct (Pos.compare_spec a b)
  end.

Ltac sf_cases :=
  unfold SFleb, SFeqb, SFltb, SFcompare;
  change (PosDef.Pos.compare_cont Eq) with Pos.compare;
  repeat match goal with
  | s : bool |- _ => destruct s
  end;
  intros; simpl in *; try discriminate; try reflexivity;
  cmp_cases; simpl in *; subst; try discriminate; try reflexivity; try lia.

Lemma SFleb_trans a b c :
  SFleb a b = true -> SFleb b c = true -> SFleb a c = true.
Proof. destruct a, b, c; sf_cases. Qed.

Lemma SFleb_total a b :
  SFeqb a a = true -> SFeqb b b = true -> SFleb a b = false -> SFleb b a = true.
Proof. destruct a, b; sf_cases. Qed.

Lemma SFeqb_leb a b k :
  SFeqb a k = true -> SFeqb b k = true -> SFleb a b = true.
Proof. destruct a, b, k; sf_cases. Qed.

Lemma SFltb_not_nan a b : SFltb a b = true -> SFeqb a a = true.
Proof. destruct a, b; sf_cases. Qed.

Lemma SFleb_refl_eqb a : SFeqb a a = true -> SFleb a a = true.
Proof. intros H. exact (SFeqb_leb a a a H H). Qed.

Lemma is_nan_false x :
  is_nan x = false <-> SFeqb (Prim2SF x) (Prim2SF x) = true.
Proof. unfold is_nan. now rewrite Bool.negb_false_iff, FloatAxioms.eqb_spec. Qed.

Lemma leb_trans (x y z : float) :
  (x <=? y)%float = true -> (y <=? z)%float = true -> (x <=? z)%float = true.
Proof. rewrite !FloatAxioms.leb_spec. apply SFleb_trans. Qed.

Lemma leb_total (x y : float) :
  is_nan x = false -> is_nan y = false ->
  (x <=? y)%float = false -> (y <=? x)%float = true.
Proof. rewrite !is_nan_false, !FloatAxioms.leb_spec. apply SFleb_total. Qed.

Lemma leb_refl (x : float) : is_nan x = false -> (x <=? x)%float = true.
Proof. rewrite is_nan_false, FloatAxioms.leb_spec. apply SFleb_refl_eqb. Qed.


Lemma ltb_not_nan (x y : float) : (x <? y)%float = true -> is_nan x = false.
Proof. rewrite is_nan_false, FloatAxioms.ltb_spec. apply SFltb_not_nan. Qed.

(** A number that is neither NaN nor zero, divided by zero, is an
    infinity. *)
Lemma div_zero_not_finite (x : float) :
  is_nan x = false -> (x =? 0)%float = false ->
  is_nan (x / 0)%float = false /\ isfinite (x / 0)%float = false.
Proof.
  unfold isfinite. rewrite !is_nan_false. unfold is_nan.
  rewrite !FloatAxioms.eqb_spec, FloatAxioms.abs_spec, FloatAxioms.div_spec.
  change (Prim2SF 0) with (S754_zero false).
  change (Prim2SF infinity) with (S754_infinity false).
  destruct (Prim2SF x) as [sx|sx| |sx mx ex]; try discriminate;
    destruct sx; intros _ _; split; reflexivity.
Qed.

End FloatOrder.

(** ** The result monad and frames *)

Lemma traverse_length {A B} (f : A -> result B) l l' :
  traverse f l = Ok l' -> length l' = length l.
Proof.
  revert l'. induction l as [|x xs IH]; intros l' H; simpl in H.
  - now inversion H.
  - destruct (f x) as [y|e]; simpl in H; [|discriminate].
    destruct (traverse f xs) as [ys|e]; simpl in H; [|discriminate].
    inversion H; subst. simpl. f_equal. now apply IH.
Qed.

Lemma traverse_lookup {A B} (f : A -> result B) l l' i x :
  traverse f l = Ok l' -> l !! i = Some x ->
  exists y, l' !! i = Some y /\ f x = Ok y.
Proof.
  revert l' i. induction l as [|a xs IH]; intros l' i H Hi; [done|].
  simpl in H.
  destruct (f a) as [y|e] eqn:Hy; simpl in H; [|discriminate].
  destruct (traverse f xs) as [ys|e] eqn:Hys; simpl in H; [|discriminate].
  inversion H; subst. destruct i as [|i]; simpl in *.
  - inversion Hi; subst. eauto.
  - eapply IH; eauto.
Qed.

Lemma bind_Ok {A B} (m : result A) (k : A -> result B) (b : B) :
  (m ≫= k) = Ok b <-> exists a, m = Ok a /\ k a = Ok b.
Proof.
  destruct m as [a|e]; simpl; split.
  - eauto.
  - now intros (a' & [= ->] & ?).
  - discriminate.
  - now intros (? & ? & ?).
Qed.

(** Split a hypothesis [x ← m; k x = Ok b] into its two steps. *)
Ltac bind_inv H x Hx :=
  apply bind_Ok in H; destruct H as (x & Hx & H).

(** Close an equation between closed terms by evaluation. *)
Ltac by_vm :=
  match goal with |- _ = ?b => vm_cast_no_check (@eq_refl _ b) end.

Lemma column_length c df col : column c df = Ok col -> length col = length df.
Proof. apply traverse_length. Qed.

Lemma set_column_Ok c vals df df' :
  set_column c vals df = Ok df' ->
  length vals = length df /\ length df' = length df /\
  forall i, df' !! i =
            (r ← df !! i; v ← vals !! i; Some (<[c := v]> r)).
Proof.
  unfold set_column. case_decide as Hlen; [|discriminate].
  intros [= <-]. split; [done|]. split.
  - rewrite length_zip_with. lia.
  - intros i. by rewrite lookup_zip_with.
Qed.

(** ** [predict] *)

Section Predict.
Context `{np : Numpy} `{sk : Sklearn}.

Lemma predict_inv (self : SalesAnomalyDetector) (df res : DataFrame) :
  predict self df = Ok res ->
  is_fitted self = true /\
  exists (X : Matrix) (scores : list float) (labels : list Z),
    decision_function (isolation_forest self) X = Ok scores /\
    forest_predict (isolation_forest self) X = Ok labels /\
    length scores = length df /\ length labels = length df /\
    length res = length df /\
    forall i, res !! i =
      (r ← df !! i; s ← scores !! i; p ← labels !! i; Some (annotate r s p)).
Proof.
  unfold predict. destruct (is_fitted self); simpl; [|discriminate].
  intros H. split; [done|].
  bind_inv H features Hf. bind_inv H X HX.
  bind_inv H scores Hs. bind_inv H labels Hl.
  bind_inv H r1 H1. bind_inv H r2 H2. bind_inv H r3 H3.
  injection H as <-.
  apply set_column_Ok in H1 as (L1 & L1' & E1).
  apply set_column_Ok in H2 as (L2 & L2' & E2).
  apply set_column_Ok in H3 as (L3 & L3' & E3).
  rewrite length_map in L1, L2, L3.
  exists X, scores, labels. repeat split; try done; try lia.
  intros i. rewrite E3, E2, E1, !list_lookup_fmap.
  destruct (df !! i) as [r|]; simpl; [|done].
  destruct (scores !! i) as [s|]; simpl; [|done].
  destruct (labels !! i) as [p|]; simpl; done.
Qed.

(** Every input position has an output row, and conversely. *)
Lemma predict_row_at (df res : DataFrame)
    (scores : list float) (labels : list Z) :
  length scores = length df -> length labels = length df ->
  (forall i, res !! i =
     (r ← df !! i; s ← scores !! i; p ← labels !! i; Some (annotate r s p))) ->
  forall i,
    (forall r, df !! i = Some r ->
       exists s p, scores !! i = Some s /\ labels !! i = Some p /\
                   res !! i = Some (annotate r s p)) /\
    (forall row, res !! i = Some row ->
       exists r s p, df !! i = Some r /\ scores !! i = Some s /\
                     labels !! i = Some p /\ row = annotate r s p).
Proof.
  intros Ls Ll E i. split.
  - intros r Hr.
    destruct (lookup_lt_is_Some_2 scores i) as [s Hs];
      [rewrite Ls; by eapply lookup_lt_Some|].
    destruct (lookup_lt_is_Some_2 labels i) as [p Hp];
      [rewrite Ll; by eapply lookup_lt_Some|].
    exists s, p. rewrite E, Hr, Hs, Hp. done.
  - intros row Hrow. rewrite E in Hrow.
    destruct (df !! i) as [r|]; simpl in Hrow; [|done].
    destruct (scores !! i) as [s|]; simpl in Hrow; [|done].
    destruct (labels !! i) as [p|]; simpl in Hrow; [|done].
    injection Hrow as <-. by exists r, s, p.
Qed.

(** C2. A detector whose [is_fitted] flag is false (as it is right after
    construction) refuses to predict: whatever the batch, [predict] raises
    the not-fitted [ValueError] and returns no result. *)
Theorem predict_requires_fit (self : SalesAnomalyDetector) (df : DataFrame) :
  is_fitted self = false ->
  predict self df =
  Raise (ValueError "Model must be fitted before making predictions").
Proof. intros Hnf. unfold predict. now rewrite Hnf. Qed.

Lemma init_not_fitted (c : float) : is_fitted (init c) = false.
Proof. reflexivity. Qed.

(** C4. When [predict] returns, the result has one row per input row, and
    the row at each position is the input row at that position with the
    three fields [anomaly_score], [is_anomaly] and [anomaly_severity]
    set; so, for an input row that has none of these three names, every
    original field is carried unchanged and the fields of the output row
    are the original ones plus exactly these three. *)
Theorem predict_preserves_rows (self : SalesAnomalyDetector)
    (df res : DataFrame) :
  predict self df = Ok res ->
  length res = length df /\
  forall (i : nat) (r : Row), df !! i = Some r ->
    exists (s : float) (p : Z),
      res !! i = Some (annotate r s p) /\
      (r !! "anomaly_score" = None -> r !! "is_anomaly" = None ->
       r !! "anomaly_severity" = None ->
       r ⊆ annotate r s p /\
       dom (annotate r s p) =
         dom r ∪ {[ "anomaly_score"; "is_anomaly"; "anomaly_severity" ]}).
Proof.
  intros H. apply predict_inv in H as (_ & X & scores & labels & _ & _ & Ls & Ll & Lr & E).
  split; [done|]. intros i r Hr.
  destruct (predict_row_at df res scores labels Ls Ll E i) as [Hi _].
  destruct (Hi r Hr) as (s & p & _ & _ & Hres).
  exists s, p. split; [done|]. intros N1 N2 N3. unfold annotate. split.
  - etrans; [|apply insert_subseteq; by rewrite !lookup_insert_ne].
    etrans; [|apply insert_subseteq; by rewrite lookup_insert_ne].
    by apply insert_subseteq.
  - rewrite !dom_insert_L. apply set_eq. intros c.
    rewrite !elem_of_union, !elem_of_singleton. tauto.
Qed.

(** C5. In every row of a [predict] result, [anomaly_severity] is the
    absolute value of that row's [anomaly_score]. *)
Theorem severity_is_abs_score (self : SalesAnomalyDetector)
    (df res : DataFrame) (i : nat) (row : Row) :
  predict self df = Ok res ->
  res !! i = Some row ->
  exists s : float,
    row !! "anomaly_score" = Some (VFloat s) /\
    row !! "anomaly_severity" = Some (VFloat (abs s)).
Proof.
  intros H Hrow.
  apply predict_inv in H as (_ & X & scores & labels & _ & _ & Ls & Ll & _ & E).
  destruct (predict_row_at df res scores labels Ls Ll E i) as [_ Hi].
  destruct (Hi row Hrow) as (r & s & p & _ & _ & _ & ->).
  exists s. unfold annotate. split.
  - do 2 (rewrite lookup_insert_ne by done). by rewrite lookup_insert_eq.
  - by rewrite lookup_insert_eq.
Qed.

(** C10. Given scikit-learn's rule that [IsolationForest.predict] labels a
    sample -1 exactly when its [decision_function] is below 0, every row
    of a [predict] result has [is_anomaly] true if and only if its
    [anomaly_score] is strictly negative. *)
Theorem flag_iff_negative_score (self : SalesAnomalyDetector)
    (df res : DataFrame) (i : nat) (row : Row) :
  predict_thresholds_decision sk ->
  predict self df = Ok res ->
  res !! i = Some row ->
  exists s : float,
    row !! "anomaly_score" = Some (VFloat s) /\
    row !! "is_anomaly" = Some (VBool (s <? 0)%float).
Proof.
  intros Hsk H Hrow.
  apply predict_inv in H as (_ & X & scores & labels & Hs & Hl & Ls & Ll & _ & E).
  rewrite Hsk, Hs in Hl. simpl in Hl. injection Hl as <-.
  destruct (predict_row_at df res scores _ Ls Ll E i) as [_ Hi].
  destruct (Hi row Hrow) as (r & s & p & _ & Hsi & Hp & ->).
  rewrite list_lookup_fmap, Hsi in Hp. simpl in Hp. injection Hp as <-.
  exists s. unfold annotate. split.
  - do 2 (rewrite lookup_insert_ne by done). by rewrite lookup_insert_eq.
  - rewrite lookup_insert_ne by done. rewrite lookup_insert_eq.
    by destruct (s <? 0)%float.
Qed.

(** Under the same rule, the rows [predict] returns for a batch of order
    rows are rows of a result set. *)
Lemma predict_gives_result_rows (self : SalesAnomalyDetector)
    (df res : DataFrame) :
  predict_thresholds_decision sk ->
  predict self df = Ok res ->
  Forall (fun r => order_row r = true) df ->
  Forall (fun r => result_row r = true) res.
Proof.
  intros Hsk H Hdf. apply Forall_lookup. intros i row Hrow.
  apply predict_inv in H as (_ & X & scores & labels & Hs & Hl & Ls & Ll & _ & E).
  rewrite Hsk, Hs in Hl. simpl in Hl. injection Hl as <-.
  destruct (predict_row_at df res scores _ Ls Ll E i) as [_ Hi].
  destruct (Hi row Hrow) as (r & s & p & Hr & Hsi & Hp & ->).
  rewrite list_lookup_fmap, Hsi in Hp. simpl in Hp. injection Hp as <-.
  eapply Forall_lookup in Hdf; [|exact Hr].
  unfold result_row, annotate.
  rewrite (lookup_insert_ne _ "anomaly_severity" "is_anomaly") by done.
  rewrite lookup_insert_eq.
  do 2 (rewrite (lookup_insert_ne _ _ "anomaly_score") by done).
  rewrite lookup_insert_eq.
  apply andb_true_iff. split.
  - destruct (s <? 0)%float eqn:Elt; simpl; [|done].
    by rewrite (FloatOrder.ltb_not_nan s 0 Elt).
  - revert Hdf. unfold order_row. cbn [forallb].
    by repeat (rewrite !(lookup_insert_ne _ "anomaly_severity") by done;
               rewrite !(lookup_insert_ne _ "is_anomaly") by done;
               rewrite !(lookup_insert_ne _ "anomaly_score") by done).
Qed.

End Predict.

Lemma toy_predict : @predict Toy.numpy Toy.sklearn toy_detector batch8 = Ok toy_results.
Proof. by_vm. Qed.

Lemma toy_thresholds : predict_thresholds_decision Toy.sklearn.
Proof. intros f X. reflexivity. Qed.

Lemma predict_requires_fit_witness :
  @predict Toy.numpy Toy.sklearn (init default_contamination) batch8 =
  Raise (ValueError "Model must be fitted before making predictions").
Proof.
  apply (@predict_requires_fit Toy.numpy Toy.sklearn). reflexivity.
Defined.

Lemma predict_preserves_rows_witness :
  length toy_results = length batch8 /\
  exists (s : float) (p : Z),
    toy_results !! 3%nat =
    Some (annotate (order 10103 500000 20 (jan 4) "Ships" "UK" "Shipped") s p).
Proof.
  destruct (@predict_preserves_rows Toy.numpy Toy.sklearn
              toy_detector batch8 toy_results toy_predict) as [Hlen Hrows].
  split; [exact Hlen|].
  destruct (Hrows 3%nat _ eq_refl) as (s & p & Hrow & _).
  exists s, p. exact Hrow.
Defined.

Lemma severity_is_abs_score_witness :
  exists s : float,
    annotate (order 10103 500000 20 (jan 4) "Ships" "UK" "Shipped")
             toy_score (-1)
      !! "anomaly_score" = Some (VFloat s) /\
    annotate (order 10103 500000 20 (jan 4) "Ships" "UK" "Shipped")
             toy_score (-1)
      !! "anomaly_severity" = Some (VFloat (abs s)).
Proof.
  apply (@severity_is_abs_score Toy.numpy Toy.sklearn
           toy_detector batch8 toy_results 3%nat).
  - exact toy_predict.
  - by_vm.
Defined.

Lemma flag_iff_negative_score_witness :
  exists s : float,
    annotate (order 10103 500000 20 (jan 4) "Ships" "UK" "Shipped")
             toy_score (-1)
      !! "anomaly_score" = Some (VFloat s) /\
    annotate (order 10103 500000 20 (jan 4) "Ships" "UK" "Shipped")
             toy_score (-1)
      !! "is_anomaly" = Some (VBool (s <? 0)%float).
Proof.
  apply (@flag_iff_negative_score Toy.numpy Toy.sklearn
           toy_detector batch8 toy_results 3%nat).
  - exact toy_thresholds.
  - exact toy_predict.
  - by_vm.
Defined.

(** ** [fit] *)

Section Fit.
Context `{np : Numpy} `{sk : Sklearn}.

(** C8 (as amended). [fit] has no batch-size check.  It completes exactly
    when feature construction, the scaler's [fit_transform] and the
    forest's [fit] all succeed on the batch, whatever its number of
    records, and then [is_fitted] is true; when one of them raises, [fit]
    raises that very exception (the one of the first step that fails) and
    [is_fitted] keeps the value it had. *)
Theorem fit_outcome (g : Rng) (self : SalesAnomalyDetector) (df : DataFrame) :
  (fit g self df).2 =
    (X ← prepare_features df;
     X' ← (scaler_fit_transform (scaler self) X).2;
     (forest_fit g (isolation_forest self) X').2) /\
  ((fit g self df).2 = Ok tt <->
   exists X X' : Matrix,
     prepare_features df = Ok X /\
     (scaler_fit_transform (scaler self) X).2 = Ok X' /\
     (forest_fit g (isolation_forest self) X').2 = Ok tt) /\
  (forall e : exn,
     (fit g self df).2 = Raise e <->
     prepare_features df = Raise e \/
     (exists X : Matrix,
        prepare_features df = Ok X /\
        (scaler_fit_transform (scaler self) X).2 = Raise e) \/
     (exists X X' : Matrix,
        prepare_features df = Ok X /\
        (scaler_fit_transform (scaler self) X).2 = Ok X' /\
        (forest_fit g (isolation_forest self) X').2 = Raise e)) /\
  match (fit g self df).2 with
  | Ok _ => is_fitted (fit g self df).1 = true
  | Raise _ => is_fitted (fit g self df).1 = is_fitted self
  end.
Proof.
  unfold fit.
  destruct (prepare_features df) as [X|e0]; simpl.
  2: { split; [done|]. split; [|split; [|done]].
       - split; [done|]. by intros (? & ? & ? & _).
       - intros e. split; [intros [= <-]; by left|].
         intros [[= <-]|[(? & ? & _)|(? & ? & ? & _)]]; done. }
  destruct (scaler_fit_transform (scaler self) X) as [sc' [X'|e0]] eqn:Esc; simpl.
  2: { split; [done|]. split; [|split; [|done]].
       - split; [done|].
         intros (X0 & X0' & [= <-] & HX0 & _). rewrite Esc in HX0. done.
       - intros e. split.
         + intros [= <-]. right. left. exists X. by rewrite Esc.
         + intros [?|[(X0 & [= <-] & HX0)|(X0 & X0' & [= <-] & HX0 & _)]];
             [done|..]; rewrite Esc in HX0; simpl in HX0; congruence. }
  destruct (forest_fit g (isolation_forest self) X') as [f' [[]|e0]] eqn:Ef; simpl.
  - split; [done|]. split; [|split; [|done]].
    + split; [|done]. intros _. exists X, X'. rewrite Esc, Ef. done.
    + intros e. split; [done|].
      intros [?|[(X0 & [= <-] & HX0)|(X0 & X0' & [= <-] & HX0 & HX0')]];
        [done|..]; rewrite Esc in HX0; simpl in HX0; [done|].
      injection HX0 as <-. rewrite Ef in HX0'. done.
  - split; [done|]. split; [|split; [|done]].
    + split; [done|].
      intros (X0 & X0' & [= <-] & HX0 & HX0'). rewrite Esc in HX0.
      simpl in HX0. injection HX0 as <-. rewrite Ef in HX0'. done.
    + intros e. split.
      * intros [= <-]. right. right. exists X, X'. by rewrite Esc, Ef.
      * intros [?|[(X0 & [= <-] & HX0)|(X0 & X0' & [= <-] & HX0 & HX0')]];
          [done|..]; rewrite Esc in HX0; simpl in HX0; [done|].
        injection HX0 as <-. rewrite Ef in HX0'. simpl in HX0'. congruence.
Qed.

(** C9. Given that an estimator built with an integer [random_state] does
    not read the process-wide random state, two runs of [fit] then
    [predict] on the same batch with the same contamination give equal
    results, whatever the random state of each run: the same detector,
    the same scored rows (so the same [anomaly_score] cell for cell) and
    the same summary. *)
Theorem fit_predict_deterministic (g1 g2 : Rng) (df : DataFrame) (c : float) :
  seeded_fit_ignores_rng sk ->
  fit g1 (init c) df = fit g2 (init c) df /\
  predict (fit g1 (init c) df).1 df = predict (fit g2 (init c) df).1 df /\
  detect_sales_anomalies g1 df c = detect_sales_anomalies g2 df c.
Proof.
  intros Hseed.
  assert (Hfit : fit g1 (init c) df = fit g2 (init c) df).
  { unfold fit. destruct (prepare_features df) as [X|e]; [|done].
    destruct (scaler_fit_transform (scaler (init c)) X) as [sc' [X'|e]]; [|done].
    cbn [isolation_forest init]. by rewrite (Hseed c 42 g1 g2 X'). }
  split; [done|]. split; [by rewrite Hfit|].
  unfold detect_sales_anomalies. by rewrite Hfit.
Qed.

End Fit.

Lemma toy_seeded : seeded_fit_ignores_rng Toy.sklearn.
Proof.
  intros c seed g1 g2 X. cbn. unfold Toy.fit_forest.
  destruct (Toy.check_array false X); reflexivity.
Qed.

Lemma fit_predict_deterministic_witness :
  @fit Toy.numpy Toy.sklearn 1 (init default_contamination) batch8 =
  @fit Toy.numpy Toy.sklearn 2 (init default_contamination) batch8 /\
  @predict Toy.numpy Toy.sklearn
    (@fit Toy.numpy Toy.sklearn 1 (init default_contamination) batch8).1 batch8 =
  @predict Toy.numpy Toy.sklearn
    (@fit Toy.numpy Toy.sklearn 2 (init default_contamination) batch8).1 batch8 /\
  @detect_sales_anomalies Toy.numpy Toy.sklearn 1 batch8 default_contamination =
  @detect_sales_anomalies Toy.numpy Toy.sklearn 2 batch8 default_contamination.
Proof.
  apply (@fit_predict_deterministic Toy.numpy Toy.sklearn). exact toy_seeded.
Defined.

(** C8 as stated fails: a batch of three records is fitted, and the
    detector is ready afterwards. *)
Lemma fit_accepts_three_records :
  (length batch3 < 10)%nat /\
  (@fit Toy.numpy Toy.sklearn 7 (init default_contamination) batch3).2 = Ok tt /\
  is_fitted (@fit Toy.numpy Toy.sklearn 7 (init default_contamination) batch3).1
    = true.
Proof. split; [simpl; lia|]. split; by_vm. Qed.

(** ** [get_anomaly_summary] without anomalies *)

Section SummaryEmpty.
Context `{np : Numpy}.

Lemma unflagged_mask (df : DataFrame) :
  Forall (fun row : Row => row !! "is_anomaly" = Some (VBool false)) df ->
  exists mask : list bool,
    (column "is_anomaly" df ≫= traverse as_bool) = Ok mask /\
    boolean_index df mask = [].
Proof.
  induction 1 as [|row df Hrow _ (mask & Hmask & Hidx)].
  - by exists [].
  - exists (false :: mask). apply bind_Ok in Hmask as (col & Hcol & Hmask).
    unfold column in *. simpl. rewrite Hrow. simpl. rewrite Hcol. simpl.
    rewrite Hmask. by simpl.
Qed.

(** C7. For a result set in which every row has [is_anomaly] false (the
    empty result set included), [get_anomaly_summary] returns the summary
    with count 0, rate 0.0 and the message, without dividing. *)
Theorem summary_without_anomalies (results_df : DataFrame) :
  Forall (fun row : Row => row !! "is_anomaly" = Some (VBool false)) results_df ->
  get_anomaly_summary results_df =
  Ok {| total_anomalies := 0;
        anomaly_rate := 0%float;
        message := Some "No anomalies detected";
        detail := None |}.
Proof.
  intros Hnone. destruct (unflagged_mask _ Hnone) as (mask & Hmask & Hidx).
  unfold get_anomaly_summary. rewrite Hmask. simpl. rewrite Hidx. done.
Qed.

End SummaryEmpty.

Lemma summary_without_anomalies_witness :
  @get_anomaly_summary Toy.numpy (map (fun r => annotate r 0.5 1) batch3) =
  Ok {| total_anomalies := 0;
        anomaly_rate := 0%float;
        message := Some "No anomalies detected";
        detail := None |}.
Proof.
  apply (@summary_without_anomalies Toy.numpy).
  repeat constructor.
Defined.

(** ** Categorical codes *)

Module Categories.

Abbreviation slt := String_as_OT.lt.

Lemma compare_Lt s c : String_as_OT.compare s c = Lt -> slt s c.
Proof. done. Qed.

Lemma compare_Gt s c : String_as_OT.compare s c = Gt -> slt c s.
Proof.
  intros H. destruct (String_as_OT.compare_spec s c) as [?|?|?]; try done.
Qed.

Lemma compare_Eq s c : String_as_OT.compare s c = Eq -> s = c.
Proof.
  intros H. destruct (String_as_OT.compare_spec s c) as [?|?|?]; try done.
Qed.

Lemma slt_irrefl s : ~ slt s s.
Proof. apply (irreflexivity slt). Qed.

Lemma slt_trans a b c : slt a b -> slt b c -> slt a c.
Proof. apply (transitivity (R := slt)). Qed.

Lemma elem_of_insert_category s t cats :
  t ∈ insert_category s cats <-> t = s \/ t ∈ cats.
Proof.
  induction cats as [|c cs IH]; simpl.
  - rewrite elem_of_cons, elem_of_nil. tauto.
  - destruct (String_as_OT.compare s c) eqn:E.
    + apply compare_Eq in E as ->. rewrite elem_of_cons. tauto.
    + rewrite elem_of_cons. tauto.
    + rewrite !elem_of_cons, IH. tauto.
Qed.

Lemma insert_category_sorted s cats :
  StronglySorted slt cats -> StronglySorted slt (insert_category s cats).
Proof.
  induction 1 as [|c cs Hcs IH Hc]; simpl.
  - repeat constructor.
  - destruct (String_as_OT.compare s c) eqn:E.
    + by constructor.
    + apply compare_Lt in E. constructor; [by constructor|].
      constructor; [done|]. eapply Forall_impl; [exact Hc|].
      intros t Ht. by eapply slt_trans.
    + apply compare_Gt in E. constructor; [done|].
      apply Forall_forall. intros t Ht.
      apply elem_of_insert_category in Ht as [->|Ht]; [done|].
      by eapply Forall_forall in Hc.
Qed.

Lemma categories_sorted col : StronglySorted slt (categories col).
Proof.
  induction col as [|[s|] col IH]; simpl; [constructor| |done].
  by apply insert_category_sorted.
Qed.

Lemma elem_of_categories s col : s ∈ categories col <-> Some s ∈ col.
Proof.
  induction col as [|[t|] col IH]; simpl.
  - rewrite !elem_of_nil. tauto.
  - rewrite elem_of_insert_category, elem_of_cons, IH.
    split; (intros [Heq|Hin]; [left; congruence|by right]).
  - rewrite elem_of_cons, IH.
    split; [by right|]. by intros [?|?].
Qed.

(** A strictly sorted list is determined by its elements. *)
Lemma sorted_ext (l1 l2 : list string) :
  StronglySorted slt l1 -> StronglySorted slt l2 ->
  (forall s, s ∈ l1 <-> s ∈ l2) -> l1 = l2.
Proof.
  intros H1. revert l2. induction H1 as [|a l1 Hl1 IH Ha]; intros l2 H2 Hext.
  - destruct l2 as [|b l2]; [done|].
    exfalso. apply (elem_of_nil b), Hext. left.
  - destruct H2 as [|b l2 Hl2 Hb].
    { exfalso. apply (elem_of_nil a), Hext. left. }
    assert (a = b) as <-.
    { assert (Hain : a ∈ b :: l2) by (apply Hext; left).
      assert (Hbin : b ∈ a :: l1) by (apply Hext; left).
      apply elem_of_cons in Hain as [?|Hain]; [done|].
      apply elem_of_cons in Hbin as [?|Hbin]; [done|].
      eapply Forall_forall in Ha; [|exact Hbin].
      eapply Forall_forall in Hb; [|exact Hain].
      destruct (slt_irrefl a). by eapply slt_trans. }
    f_equal. apply IH; [done|]. intros s. split; intros Hs.
    + assert (Hin : s ∈ a :: l2) by (apply Hext; by right).
      apply elem_of_cons in Hin as [->|?]; [|done].
      eapply Forall_forall in Ha; [|exact Hs]. by destruct (slt_irrefl a).
    + assert (Hin : s ∈ a :: l1) by (apply Hext; by right).
      apply elem_of_cons in Hin as [->|?]; [|done].
      eapply Forall_forall in Hb; [|exact Hs]. by destruct (slt_irrefl a).
Qed.

(** Two columns with the same distinct values have the same categories. *)
Lemma categories_ext (col1 col2 : list (option string)) :
  (forall s, Some s ∈ col1 <-> Some s ∈ col2) ->
  categories col1 = categories col2.
Proof.
  intros Hext. apply sorted_ext; try apply categories_sorted.
  intros s. by rewrite !elem_of_categories.
Qed.

Lemma position_elem s cats :
  s ∈ cats -> exists k, position s cats = Some k /\ cats !! k = Some s.
Proof.
  induction cats as [|c cs IH]; intros Hin; [by apply elem_of_nil in Hin|].
  simpl. destruct (String.eqb s c) eqn:E.
  - apply String.eqb_eq in E as ->. by exists O.
  - apply String.eqb_neq in E. apply elem_of_cons in Hin as [?|Hin]; [done|].
    destruct (IH Hin) as (k & -> & Hk). by exists (S k).
Qed.

End Categories.

(** ** The shape of the feature matrix *)

Section Features.
Context `{np : Numpy}.

Lemma feature_rows_of (n : nat) (cols : list (list float)) (i j : nat) :
  (i < n)%nat ->
  feature (map (map fillna0) (rows_of n cols)) i j =
  (col ← cols !! j; Some (fillna0 (nth i col nan))).
Proof.
  intros Hi. unfold feature, rows_of.
  rewrite !list_lookup_fmap, lookup_seq_lt by done. simpl.
  rewrite !list_lookup_fmap. by destruct (cols !! j).
Qed.

(** Each encoded entry of the matrix is the code of the row's cell under
    the categories of the very column passed to this call. *)
Lemma prepare_features_encoded (df : DataFrame) (X : Matrix)
    (name : string) (ix : nat) (col : list (option string))
    (i : nat) (v : option string) :
  (name, ix) ∈ encoded_columns ->
  prepare_features df = Ok X ->
  (column name df ≫= traverse as_category) = Ok col ->
  col !! i = Some v ->
  feature X i ix = Some (fillna0 (float_of_Z (code_of (categories col) v))).
Proof.
  intros Hname HX Hcol Hi.
  assert (Hlen : length col = length df).
  { apply bind_Ok in Hcol as (cells & Hcells & Hcol).
    apply traverse_length in Hcol. apply column_length in Hcells. lia. }
  assert (Hlt : (i < length df)%nat).
  { rewrite <- Hlen. by eapply lookup_lt_Some. }
  unfold prepare_features in HX.
  bind_inv HX dates Hdates. bind_inv HX sales_cells Hsc.
  bind_inv HX quantity_cells Hqc. bind_inv HX sales Hsales.
  bind_inv HX quantity Hquantity.
  bind_inv HX product Hproduct. bind_inv HX country Hcountry.
  bind_inv HX status Hstatus. injection HX as <-.
  rewrite feature_rows_of by done.
  assert (Hnth : nth i (map float_of_Z (categorical_codes col)) nan =
                 float_of_Z (code_of (categories col) v)).
  { apply nth_lookup_Some. unfold categorical_codes.
    by rewrite !list_lookup_fmap, Hi. }
  unfold encoded_columns in Hname.
  repeat (apply elem_of_cons in Hname as [[= -> ->]|Hname]);
    [| | |by apply elem_of_nil in Hname].
  - rewrite Hproduct in Hcol. injection Hcol as ->. simpl. by rewrite Hnth.
  - rewrite Hcountry in Hcol. injection Hcol as ->. simpl. by rewrite Hnth.
  - rewrite Hstatus in Hcol. injection Hcol as ->. simpl. by rewrite Hnth.
Qed.

(** C1 (as amended). Every [prepare_features] call, at fit and at predict
    alike, builds the category-to-integer mapping from the batch it is
    given: a value's code is its rank among the sorted distinct values of
    that batch's column, so a value present in the batch never gets the
    sentinel.  A value therefore gets at predict time the code it got at
    fit time whenever the two batches have the same distinct values in
    that column. *)
Theorem encoding_follows_batch (df_fit df_predict : DataFrame)
    (X_fit X_predict : Matrix) (name : string) (ix : nat)
    (c_fit c_predict : list (option string)) (i j : nat) (s : string) :
  (name, ix) ∈ encoded_columns ->
  prepare_features df_fit = Ok X_fit ->
  prepare_features df_predict = Ok X_predict ->
  (column name df_fit ≫= traverse as_category) = Ok c_fit ->
  (column name df_predict ≫= traverse as_category) = Ok c_predict ->
  c_fit !! i = Some (Some s) ->
  c_predict !! j = Some (Some s) ->
  (exists k : nat,
     categories c_predict !! k = Some s /\
     feature X_predict j ix = Some (fillna0 (float_of_Z (Z.of_nat k)))) /\
  ((forall t, Some t ∈ c_fit <-> Some t ∈ c_predict) ->
   feature X_fit i ix = feature X_predict j ix).
Proof.
  intros Hname HXf HXp Hcf Hcp Hi Hj.
  pose proof (prepare_features_encoded _ _ _ _ _ _ _ Hname HXf Hcf Hi) as Ef.
  pose proof (prepare_features_encoded _ _ _ _ _ _ _ Hname HXp Hcp Hj) as Ep.
  split.
  - destruct (Categories.position_elem s (categories c_predict)) as (k & Hk & Hcat).
    { apply Categories.elem_of_categories. by eapply list_elem_of_lookup_2. }
    exists k. split; [done|]. rewrite Ep. simpl. by rewrite Hk.
  - intros Hsame. rewrite Ef, Ep.
    by rewrite (Categories.categories_ext c_fit c_predict Hsame).
Qed.

(** The [sales_per_quantity] entry of a row is the quotient of its two
    cells, with NaN replaced by 0. *)
Lemma prepare_features_quotient (df : DataFrame) (X : Matrix) (i : nat)
    (r : Row) (s : float) (q : Z) :
  prepare_features df = Ok X ->
  df !! i = Some r ->
  r !! "SALES" = Some (VFloat s) ->
  r !! "QUANTITYORDERED" = Some (VInt q) ->
  feature X i sales_per_quantity_ix = Some (fillna0 (s / float_of_Z q)%float).
Proof.
  intros HX Hi Hs Hq.
  assert (Hlt : (i < length df)%nat) by (by eapply lookup_lt_Some).
  unfold prepare_features in HX.
  bind_inv HX dates Hdates. bind_inv HX sales_cells Hsc.
  bind_inv HX quantity_cells Hqc. bind_inv HX sales Hsales.
  bind_inv HX quantity Hquantity.
  bind_inv HX product Hproduct. bind_inv HX country Hcountry.
  bind_inv HX status Hstatus. injection HX as <-.
  rewrite feature_rows_of by done. cbn [sales_per_quantity_ix lookup list_lookup mbind option_bind].
  destruct (traverse_lookup _ _ _ _ _ Hsc Hi) as (sc & Hsci & Hsc').
  destruct (traverse_lookup _ _ _ _ _ Hqc Hi) as (qc & Hqci & Hqc').
  rewrite Hs in Hsc'. rewrite Hq in Hqc'.
  injection Hsc' as <-. injection Hqc' as <-.
  destruct (traverse_lookup _ _ _ _ _ Hsales Hsci) as (s' & Hsi & [= <-]).
  destruct (traverse_lookup _ _ _ _ _ Hquantity Hqci) as (q' & Hqi & [= <-]).
  f_equal. f_equal. apply nth_lookup_Some.
  by rewrite lookup_zip_with, Hsi, Hqi.
Qed.

(** C3 (what the code does). For a record with [QUANTITYORDERED = 0] and
    a sale amount that is a number other than zero, [prepare_features],
    when it returns, has put an infinity in the [sales_per_quantity]
    entry of that row: [fillna(0)] replaces NaN only. *)
Theorem zero_quantity_not_finite (df : DataFrame) (X : Matrix) (i : nat)
    (r : Row) (s : float) :
  prepare_features df = Ok X ->
  df !! i = Some r ->
  r !! "SALES" = Some (VFloat s) ->
  r !! "QUANTITYORDERED" = Some (VInt 0) ->
  is_nan s = false -> (s =? 0)%float = false ->
  exists x : float,
    feature X i sales_per_quantity_ix = Some x /\ isfinite x = false.
Proof.
  intros HX Hi Hs Hq Hnan Hnz.
  rewrite (prepare_features_quotient df X i r s 0 HX Hi Hs Hq).
  change (float_of_Z 0) with 0%float.
  destruct (FloatOrder.div_zero_not_finite s Hnan Hnz) as [Hn Hf].
  exists (s / 0)%float. unfold fillna0. by rewrite Hn.
Qed.

(** On the batch of two records with nothing ordered: no exception; the
    record sold for 100 gets +infinity, the record sold for 0 gets
    0/0 = NaN, which [fillna(0)] turns into 0. *)
Lemma zero_quantity_gives_infinity :
  exists X : Matrix,
    prepare_features zero_quantity_batch = Ok X /\
    feature X 0 sales_per_quantity_ix = Some infinity /\
    isfinite infinity = false /\
    feature X 1 sales_per_quantity_ix = Some 0%float.
Proof. eexists. split; [vm_compute; reflexivity|]. by vm_compute. Qed.

End Features.

Lemma zero_quantity_not_finite_witness :
  exists x : float,
    feature (toy_features zero_quantity_batch) 0 sales_per_quantity_ix = Some x /\
    isfinite x = false.
Proof.
  apply (@zero_quantity_not_finite Toy.numpy zero_quantity_batch
           (toy_features zero_quantity_batch) 0%nat
           (order 10100 100 0 (jan 1) "Planes" "USA" "Shipped") 100%float).
  - vm_compute. reflexivity.
  - reflexivity.
  - by_vm.
  - by_vm.
  - vm_compute. reflexivity.
  - vm_compute. reflexivity.
Defined.

(** C1 as stated fails.  Fitting on [batch3] encodes "Ships" as 1;
    predicting on [later_batch] encodes "Ships" as 0, and gives "Vintage
    Cars", which the fit batch did not contain, the code 1 and not a
    sentinel. *)
Lemma codes_differ_between_calls :
  exists X_fit X_predict : Matrix,
    @prepare_features Toy.numpy batch3 = Ok X_fit /\
    @prepare_features Toy.numpy later_batch = Ok X_predict /\
    feature X_fit 1 product_encoded_ix = Some 1%float /\
    feature X_predict 0 product_encoded_ix = Some 0%float /\
    feature X_predict 1 product_encoded_ix = Some 1%float.
Proof.
  do 2 eexists. split; [vm_compute; reflexivity|].
  split; [vm_compute; reflexivity|]. by vm_compute.
Qed.

Lemma encoding_follows_batch_witness :
  (exists k : nat,
     categories (toy_category "PRODUCTLINE" (take 2 batch8)) !! k = Some "Ships" /\
     feature (toy_features (take 2 batch8)) 1 product_encoded_ix =
       Some (fillna0 (float_of_Z (Z.of_nat k)))) /\
  feature (toy_features batch8) 3 product_encoded_ix =
  feature (toy_features (take 2 batch8)) 1 product_encoded_ix.
Proof.
  destruct (@encoding_follows_batch Toy.numpy batch8 (take 2 batch8)
              (toy_features batch8) (toy_features (take 2 batch8))
              "PRODUCTLINE" product_encoded_ix
              (toy_category "PRODUCTLINE" batch8)
              (toy_category "PRODUCTLINE" (take 2 batch8))
              3%nat 1%nat "Ships") as [Hrank Hsame].
  - unfold encoded_columns. left.
  - by_vm.
  - by_vm.
  - by_vm.
  - by_vm.
  - by_vm.
  - by_vm.
  - split; [exact Hrank|]. apply Hsame.
    intros t. vm_compute toy_category.
    rewrite !elem_of_cons, !elem_of_nil. tauto.
Defined.

(** ** Ranking by score *)

Module Ranking.

Lemma ltb_leb (x y : float) : (x <? y)%float = true -> (x <=? y)%float = true.
Proof.
  rewrite FloatAxioms.ltb_spec, FloatAxioms.leb_spec.
  destruct (Prim2SF x), (Prim2SF y); FloatOrder.sf_cases.
Qed.

Lemma not_ltb_leb (x y : float) :
  is_nan x = false -> is_nan y = false ->
  (x <? y)%float = false -> (y <=? x)%float = true.
Proof.
  rewrite !FloatOrder.is_nan_false, FloatAxioms.ltb_spec, FloatAxioms.leb_spec.
  destruct (Prim2SF x), (Prim2SF y); FloatOrder.sf_cases.
Qed.

Section Sort.
Context {A : Type}.
Implicit Types (x y : float * A) (l : list (float * A)).

Lemma insert_by_score_perm x l : insert_by_score x l ≡ₚ x :: l.
Proof.
  induction l as [|y l IH]; simpl; [done|].
  destruct (x.1 <=? y.1)%float; [done|].
  rewrite IH. apply Permutation_swap.
Qed.

Lemma sort_by_score_perm l : sort_by_score l ≡ₚ l.
Proof.
  induction l as [|x l IH]; simpl; [done|].
  by rewrite insert_by_score_perm, IH.
Qed.

Lemma insert_by_score_sorted x l :
  has_score x -> Forall has_score l ->
  StronglySorted key_le l -> StronglySorted key_le (insert_by_score x l).
Proof.
  intros Hx Hl Hs. induction Hs as [|y l Hs IH Hy]; simpl.
  - repeat constructor.
  - apply Forall_cons in Hl as [Hyn Hl].
    destruct (x.1 <=? y.1)%float eqn:E.
    + constructor; [by constructor|]. constructor; [done|].
      eapply Forall_impl; [exact Hy|]. intros z Hz.
      unfold key_le in *. by eapply FloatOrder.leb_trans.
    + constructor; [by apply IH|].
      apply Forall_forall. intros z Hz.
      rewrite insert_by_score_perm in Hz.
      apply elem_of_cons in Hz as [->|Hz].
      * by apply FloatOrder.leb_total.
      * by eapply Forall_forall in Hy.
Qed.

Lemma sort_by_score_sorted l :
  Forall has_score l -> StronglySorted key_le (sort_by_score l).
Proof.
  induction 1 as [|x l Hx Hl IH]; simpl; [constructor|].
  apply insert_by_score_sorted; [done| |done].
  by rewrite sort_by_score_perm.
Qed.



Lemma filter_has_score l :
  Forall has_score l ->
  filter (fun x => is_nan x.1 = false) l = l /\
  filter (fun x => is_nan x.1 = true) l = [].
Proof.
  induction 1 as [|x l Hx _ [IH1 IH2]]; [done|].
  rewrite !filter_cons. unfold has_score in Hx. rewrite Hx.
  repeat case_decide; try done. by rewrite IH1, IH2.
Qed.

(** With a score on every row, [nsmallest] is the head of the stable
    ascending sort. *)
Lemma nsmallest_scored (n : nat) l :
  Forall has_score l -> nsmallest n l = take n (sort_by_score l).
Proof.
  intros Hl. unfold nsmallest.
  destruct (filter_has_score l Hl) as [-> ->]. by rewrite app_nil_r.
Qed.

End Sort.

(** [Series.min] on a column without NaN. *)
Lemma foldl_min (m : float) (rest : list float) :
  is_nan m = false -> Forall (fun y => is_nan y = false) rest ->
  let r := foldl (fun m y => if (y <? m)%float then y else m) m rest in
  r ∈ m :: rest /\ is_nan r = false /\
  Forall (fun y => (r <=? y)%float = true) (m :: rest).
Proof.
  intros Hm Hrest. revert m Hm.
  induction Hrest as [|y rest Hy _ IH]; intros m Hm; simpl.
  - split; [left|]. split; [done|]. repeat constructor.
    by apply FloatOrder.leb_refl.
  - destruct (y <? m)%float eqn:E.
    + destruct (IH y Hy) as (Hin & Hn & Hall). split; [by right|].
      split; [done|]. apply Forall_cons in Hall as [Hry Hall].
      constructor; [|by constructor].
      eapply FloatOrder.leb_trans; [exact Hry|]. by apply ltb_leb.
    + destruct (IH m Hm) as (Hin & Hn & Hall). split.
      { apply elem_of_cons in Hin as [->|Hin]; [left|right; by right]. }
      split; [done|]. apply Forall_cons in Hall as [Hrm Hall].
      constructor; [done|]. constructor; [|done].
      eapply FloatOrder.leb_trans; [exact Hrm|]. by apply not_ltb_leb.
Qed.

Lemma series_min_least (xs : list float) :
  xs <> [] -> Forall (fun y => is_nan y = false) xs ->
  series_min xs ∈ xs /\ Forall (fun y => (series_min xs <=? y)%float = true) xs.
Proof.
  intros Hne Hxs. unfold series_min.
  assert (Hf : filter (fun x => is_nan x = false) xs = xs).
  { clear Hne. induction Hxs as [|x xs Hx _ IH]; [done|].
    rewrite filter_cons. case_decide; [by rewrite IH|done]. }
  rewrite Hf. destruct xs as [|x rest]; [done|].
  apply Forall_cons in Hxs as [Hx Hrest].
  destruct (foldl_min x rest Hx Hrest) as (Hin & _ & Hall). done.
Qed.


End Ranking.

(** ** [get_anomaly_summary] with anomalies *)

Section SummaryFull.
Context `{np : Numpy}.

Lemma traverse_map {A B} (f : A -> result B) (g : A -> B) (l : list A) :
  Forall (fun x => f x = Ok (g x)) l -> traverse f l = Ok (g <$> l).
Proof.
  induction 1 as [|x l Hx _ IH]; [done|]. simpl. rewrite Hx. simpl.
  rewrite IH. done.
Qed.

Lemma result_row_inv (r : Row) :
  result_row r = true ->
  exists (b : bool) (s : float) (o sa : value),
    r !! "is_anomaly" = Some (VBool b) /\ flagged r = b /\
    r !! "anomaly_score" = Some (VFloat s) /\ score_of r = s /\
    (b = true -> is_nan s = false) /\
    r !! "ORDERNUMBER" = Some o /\ r !! "SALES" = Some sa /\
    forall name, name ∈ ["PRODUCTLINE"; "COUNTRY"; "STATUS"] ->
      exists v, r !! name = Some v /\ as_category v = Ok (category_of name r).
Proof.
  unfold result_row, order_row, flagged, score_of.
  destruct (r !! "is_anomaly") as [[| |  |b| |]|] eqn:Eb; try done.
  destruct (r !! "anomaly_score") as [[s| | | | |]|] eqn:Es; try done.
  rewrite !andb_true_iff, !bool_decide_eq_true, forallb_forall.
  intros [Hnan [[Hcat [o Ho]] [sa Hsa]]].
  exists b, s, o, sa. repeat split; try done.
  - by destruct b.
  - intros ->. simpl in Hnan. by apply negb_true_iff in Hnan.
  - intros name Hname. apply list_elem_of_In in Hname.
    specialize (Hcat name Hname). unfold category_of.
    destruct (r !! name) as [v|]; [|done]. exists v. split; [done|].
    by destruct v.
Qed.







Lemma scored_rows (l : list Row) :
  Forall (fun r => result_row r = true) l ->
  traverse scored l = Ok (with_score <$> l).
Proof.
  intros Hl. apply traverse_map. eapply Forall_impl; [exact Hl|].
  intros r Hr.
  destruct (result_row_inv r Hr) as (_ & s & _ & _ & _ & _ & Hs & Hsc & _).
  unfold scored, with_score. by rewrite Hs, Hsc.
Qed.


End SummaryFull.


(** On [tied_results] the five top orders are 2, 6 (score -0.5), then 1,
    4, 8 (score -0.25): ascending scores, equal scores in input order. *)
Example summary_on_ties :
  (fun s => (total_anomalies s, anomaly_rate s,
             (fun d => (max_anomaly_score d,
                        ORDERNUMBER <$> top_anomalous_orders d)) <$> detail s))
    <$> (match @get_anomaly_summary Toy.numpy tied_results with
         | Ok s => Some s
         | Raise _ => None
         end) =
  Some (7%nat, 87.5%float,
        Some ((-0.5)%float, [VInt 2; VInt 6; VInt 1; VInt 4; VInt 8])).
Proof. vm_compute. reflexivity. Qed.

(** * Further properties *)

(** ** Feature construction: success, failure and shape *)

Section FeatureShape.
Context `{np : Numpy}.

Lemma read_column {B} (name : string) (f : value -> result B) (df : DataFrame) :
  Forall (fun r : Row => exists v y, r !! name = Some v /\ f v = Ok y) df ->
  exists cells l, column name df = Ok cells /\ traverse f cells = Ok l.
Proof.
  induction 1 as [|r df (v & y & Hv & Hy) _ (cells & l & Hc & Hl)].
  - by exists [], [].
  - exists (v :: cells), (y :: l). unfold column in *. simpl.
    rewrite Hv. simpl. rewrite Hc. simpl. rewrite Hy. simpl. by rewrite Hl.
Qed.

Lemma order_record_inv (r : Row) :
  order_record r = true ->
  (exists v y, r !! "ORDERDATE" = Some v /\ as_datetime v = Ok y) /\
  (exists v y, r !! "SALES" = Some v /\ as_number v = Ok y) /\
  (exists v y, r !! "QUANTITYORDERED" = Some v /\ as_number v = Ok y) /\
  (exists v y, r !! "PRODUCTLINE" = Some v /\ as_category v = Ok y) /\
  (exists v y, r !! "COUNTRY" = Some v /\ as_category v = Ok y) /\
  (exists v y, r !! "STATUS" = Some v /\ as_category v = Ok y).
Proof.
  unfold order_record.
  destruct (r !! "ORDERDATE") as [d|]; [|done].
  destruct (r !! "SALES") as [s|]; [|done].
  destruct (r !! "QUANTITYORDERED") as [q|]; [|done].
  destruct (r !! "PRODUCTLINE") as [p|]; [|done].
  destruct (r !! "COUNTRY") as [c|]; [|done].
  destruct (r !! "STATUS") as [st|]; [|done].
  rewrite !andb_true_iff. intros [[[[[Hd Hs] Hq] Hp] Hc] Hst].
  repeat split.
  - destruct d; try done; by eexists _, _.
  - destruct s; try done; by eexists _, _.
  - destruct q; try done; by eexists _, _.
  - destruct p; try done; by eexists _, _.
  - destruct c; try done; by eexists _, _.
  - destruct st; try done; by eexists _, _.
Qed.

(** When [prepare_features] returns, the matrix was assembled from eleven
    columns. *)
Lemma prepare_features_columns (df : DataFrame) (X : Matrix) :
  prepare_features df = Ok X ->
  exists cols : list (list float),
    length cols = 11%nat /\
    X = map (map fillna0) (rows_of (length df) cols).
Proof.
  unfold prepare_features. intros HX.
  bind_inv HX dates Hdates. bind_inv HX sales_cells Hsc.
  bind_inv HX quantity_cells Hqc. bind_inv HX sales Hsales.
  bind_inv HX quantity Hquantity.
  bind_inv HX product Hproduct. bind_inv HX country Hcountry.
  bind_inv HX status Hstatus. injection HX as <-.
  eexists. split; [|reflexivity]. reflexivity.
Qed.

Lemma fillna0_not_nan (x : float) : is_nan (fillna0 x) = false.
Proof. unfold fillna0. destruct (is_nan x) eqn:E; [reflexivity|exact E]. Qed.

(** X1. When [prepare_features] returns, the matrix has one row per
    record of the batch and every row has exactly the eleven features. *)
Theorem prepare_features_shape (df : DataFrame) (X : Matrix) :
  prepare_features df = Ok X ->
  length X = length df /\ Forall (fun row => length row = 11%nat) X.
Proof.
  intros HX. apply prepare_features_columns in HX as (cols & Hcols & ->).
  unfold rows_of. split.
  - by rewrite !length_map, length_seq.
  - apply Forall_fmap, Forall_fmap, Forall_forall. intros i _. simpl.
    by rewrite !length_map.
Qed.

(** X2. When [prepare_features] returns, no entry of the matrix is NaN:
    [fillna(0)] has replaced every one (infinities are left). *)
Theorem prepare_features_no_nan (df : DataFrame) (X : Matrix) :
  prepare_features df = Ok X ->
  Forall (Forall (fun x => is_nan x = false)) X.
Proof.
  intros HX. apply prepare_features_columns in HX as (cols & _ & ->).
  apply Forall_fmap, Forall_forall. intros row _. simpl.
  apply Forall_fmap, Forall_forall. intros x _. apply fillna0_not_nan.
Qed.

(** X3. On a batch (empty or not) in which every record has the six
    columns with cells of the right kind, missing cells and zero
    quantities included, [prepare_features] returns: it raises nothing. *)
Theorem prepare_features_returns (df : DataFrame) :
  Forall (fun r => order_record r = true) df ->
  exists X : Matrix, prepare_features df = Ok X.
Proof.
  intros Hdf.
  assert (Hall : forall P : Row -> Prop,
            (forall r, order_record r = true -> P r) -> Forall P df).
  { intros P HP. eapply Forall_impl; [exact Hdf|]. exact HP. }
  destruct (read_column "ORDERDATE" as_datetime df) as (c1 & l1 & H1 & H1');
    [apply Hall; intros r Hr; apply (order_record_inv r Hr)|].
  destruct (read_column "SALES" as_number df) as (c2 & l2 & H2 & H2');
    [apply Hall; intros r Hr; apply (order_record_inv r Hr)|].
  destruct (read_column "QUANTITYORDERED" as_number df) as (c3 & l3 & H3 & H3');
    [apply Hall; intros r Hr; apply (order_record_inv r Hr)|].
  destruct (read_column "PRODUCTLINE" as_category df) as (c4 & l4 & H4 & H4');
    [apply Hall; intros r Hr; apply (order_record_inv r Hr)|].
  destruct (read_column "COUNTRY" as_category df) as (c5 & l5 & H5 & H5');
    [apply Hall; intros r Hr; apply (order_record_inv r Hr)|].
  destruct (read_column "STATUS" as_category df) as (c6 & l6 & H6 & H6');
    [apply Hall; intros r Hr; apply (order_record_inv r Hr)|].
  unfold prepare_features.
  rewrite H1. cbn [mbind result_bind]. rewrite H1'. cbn [mbind result_bind].
  rewrite H2. cbn [mbind result_bind]. rewrite H3. cbn [mbind result_bind].
  rewrite H2'. cbn [mbind result_bind]. rewrite H3'. cbn [mbind result_bind].
  rewrite H4. cbn [mbind result_bind]. rewrite H4'. cbn [mbind result_bind].
  rewrite H5. cbn [mbind result_bind]. rewrite H5'. cbn [mbind result_bind].
  rewrite H6. cbn [mbind result_bind]. rewrite H6'. cbn [mbind result_bind].
  eexists. reflexivity.
Qed.

Lemma read_column_delete {B} (c name : string) (f : value -> result B)
    (df : DataFrame) :
  name <> c ->
  Forall (fun r : Row => exists v y, r !! name = Some v /\ f v = Ok y) df ->
  exists cells l,
    column name (delete c <$> df) = Ok cells /\ traverse f cells = Ok l.
Proof.
  intros Hne Hdf. apply read_column, Forall_fmap.
  eapply Forall_impl; [exact Hdf|]. intros r (v & y & Hv & Hy). simpl.
  exists v, y. by rewrite lookup_delete_ne.
Qed.

Lemma column_deleted (c : string) (df : DataFrame) :
  df <> [] -> column c (delete c <$> df) = Raise (KeyError c).
Proof.
  destruct df as [|r df]; [done|]. intros _. unfold column. simpl.
  by rewrite lookup_delete_eq.
Qed.

(** X4. Each of the six columns is required.  Take a non-empty batch of
    well-formed records and drop one of the six columns: then
    [prepare_features] raises [KeyError] for that column, [fit] raises it
    and leaves the detector exactly as it was, and [predict] on a fitted
    detector raises it. *)
Theorem missing_column_raises `{sk : Sklearn} (g : Rng)
    (self : SalesAnomalyDetector) (df : DataFrame) (c : string) :
  Forall (fun r => order_record r = true) df ->
  df <> [] ->
  c ∈ required_columns ->
  prepare_features (delete c <$> df) = Raise (KeyError c) /\
  fit g self (delete c <$> df) = (self, Raise (KeyError c)) /\
  (is_fitted self = true ->
   predict self (delete c <$> df) = Raise (KeyError c)).
Proof.
  intros Hdf Hne Hc.
  assert (Hfeat : prepare_features (delete c <$> df) = Raise (KeyError c)).
  { assert (Hall : forall P : Row -> Prop,
              (forall r, order_record r = true -> P r) -> Forall P df).
    { intros P HP. eapply Forall_impl; [exact Hdf|]. exact HP. }
    pose proof (column_deleted c df Hne) as Hdel.
    assert (Hread : forall {B} name (f : value -> result B),
              name <> c ->
              (forall r, order_record r = true ->
                         exists v y, r !! name = Some v /\ f v = Ok y) ->
              exists cells l, column name (delete c <$> df) = Ok cells /\
                              traverse f cells = Ok l).
    { intros B name f Hn HP. apply read_column_delete; [done|]. by apply Hall. }
    unfold required_columns in Hc. unfold prepare_features.
    repeat (apply elem_of_cons in Hc as [->|Hc]);
      [| | | | | |by apply elem_of_nil in Hc].
    - by rewrite Hdel.
    - destruct (Hread _ "ORDERDATE" as_datetime) as (c1 & l1 & -> & H1');
        [done|intros r Hr; apply (order_record_inv r Hr)|].
      cbn [mbind result_bind]. rewrite H1'. cbn [mbind result_bind].
      by rewrite Hdel.
    - destruct (Hread _ "ORDERDATE" as_datetime) as (c1 & l1 & -> & H1');
        [done|intros r Hr; apply (order_record_inv r Hr)|].
      cbn [mbind result_bind]. rewrite H1'. cbn [mbind result_bind].
      destruct (Hread _ "SALES" as_number) as (c2 & l2 & -> & H2');
        [done|intros r Hr; apply (order_record_inv r Hr)|].
      cbn [mbind result_bind]. by rewrite Hdel.
    - destruct (Hread _ "ORDERDATE" as_datetime) as (c1 & l1 & -> & H1');
        [done|intros r Hr; apply (order_record_inv r Hr)|].
      cbn [mbind result_bind]. rewrite H1'. cbn [mbind result_bind].
      destruct (Hread _ "SALES" as_number) as (c2 & l2 & -> & H2');
        [done|intros r Hr; apply (order_record_inv r Hr)|].
      cbn [mbind result_bind].
      destruct (Hread _ "QUANTITYORDERED" as_number) as (c3 & l3 & -> & H3');
        [done|intros r Hr; apply (order_record_inv r Hr)|].
      cbn [mbind result_bind]. rewrite H2'. cbn [mbind result_bind].
      rewrite H3'. cbn [mbind result_bind]. by rewrite Hdel.
    - destruct (Hread _ "ORDERDATE" as_datetime) as (c1 & l1 & -> & H1');
        [done|intros r Hr; apply (order_record_inv r Hr)|].
      cbn [mbind result_bind]. rewrite H1'. cbn [mbind result_bind].
      destruct (Hread _ "SALES" as_number) as (c2 & l2 & -> & H2');
        [done|intros r Hr; apply (order_record_inv r Hr)|].
      cbn [mbind result_bind].
      destruct (Hread _ "QUANTITYORDERED" as_number) as (c3 & l3 & -> & H3');
        [done|intros r Hr; apply (order_record_inv r Hr)|].
      cbn [mbind result_bind]. rewrite H2'. cbn [mbind result_bind].
      rewrite H3'. cbn [mbind result_bind].
      destruct (Hread _ "PRODUCTLINE" as_category) as (c4 & l4 & -> & H4');
        [done|intros r Hr; apply (order_record_inv r Hr)|].
      cbn [mbind result_bind]. rewrite H4'. cbn [mbind result_bind].
      by rewrite Hdel.
    - destruct (Hread _ "ORDERDATE" as_datetime) as (c1 & l1 & -> & H1');
        [done|intros r Hr; apply (order_record_inv r Hr)|].
      cbn [mbind result_bind]. rewrite H1'. cbn [mbind result_bind].
      destruct (Hread _ "SALES" as_number) as (c2 & l2 & -> & H2');
        [done|intros r Hr; apply (order_record_inv r Hr)|].
      cbn [mbind result_bind].
      destruct (Hread _ "QUANTITYORDERED" as_number) as (c3 & l3 & -> & H3');
        [done|intros r Hr; apply (order_record_inv r Hr)|].
      cbn [mbind result_bind]. rewrite H2'. cbn [mbind result_bind].
      rewrite H3'. cbn [mbind result_bind].
      destruct (Hread _ "PRODUCTLINE" as_category) as (c4 & l4 & -> & H4');
        [done|intros r Hr; apply (order_record_inv r Hr)|].
      cbn [mbind result_bind]. rewrite H4'. cbn [mbind result_bind].
      destruct (Hread _ "COUNTRY" as_category) as (c5 & l5 & -> & H5');
        [done|intros r Hr; apply (order_record_inv r Hr)|].
      cbn [mbind result_bind]. rewrite H5'. cbn [mbind result_bind].
      by rewrite Hdel. }
  split; [done|]. split.
  - unfold fit. by rewrite Hfeat.
  - intros Hfit. unfold predict. rewrite Hfit. cbn [negb]. by rewrite Hfeat.
Qed.

End FeatureShape.

Lemma batch8_records : Forall (fun r => order_record r = true) batch8.
Proof. apply (bool_decide_unpack _). vm_compute. exact I. Qed.

Lemma prepare_features_shape_witness :
  length (toy_features batch8) = length batch8 /\
  Forall (fun row => length row = 11%nat) (toy_features batch8).
Proof.
  apply (@prepare_features_shape Toy.numpy batch8 (toy_features batch8)).
  vm_compute. reflexivity.
Defined.

Lemma prepare_features_no_nan_witness :
  Forall (Forall (fun x => is_nan x = false)) (toy_features zero_quantity_batch).
Proof.
  apply (@prepare_features_no_nan Toy.numpy zero_quantity_batch).
  vm_compute. reflexivity.
Defined.

Lemma prepare_features_returns_witness :
  exists X : Matrix, @prepare_features Toy.numpy zero_quantity_batch = Ok X.
Proof.
  apply (@prepare_features_returns Toy.numpy zero_quantity_batch).
  apply (bool_decide_unpack _). vm_compute. exact I.
Defined.

Lemma missing_column_raises_witness :
  @prepare_features Toy.numpy (delete "SALES" <$> batch8) =
    Raise (KeyError "SALES") /\
  @fit Toy.numpy Toy.sklearn 7 toy_detector (delete "SALES" <$> batch8) =
    (toy_detector, Raise (KeyError "SALES")) /\
  @predict Toy.numpy Toy.sklearn toy_detector (delete "SALES" <$> batch8) =
    Raise (KeyError "SALES").
Proof.
  destruct (@missing_column_raises Toy.numpy Toy.sklearn 7 toy_detector
              batch8 "SALES" batch8_records) as (Hfeat & Hfit & Hpredict).
  - discriminate.
  - unfold required_columns. right. left.
  - split; [exact Hfeat|]. split; [exact Hfit|]. apply Hpredict. by_vm.
Defined.

(** ** Feature construction: one row *)

Section FeatureRow.
Context `{np : Numpy}.

(** The row of the matrix for one record, from that record's own cells;
    only the three codes depend on the rest of the batch. *)
Lemma prepare_features_row (df : DataFrame) (X : Matrix) (i : nat) (r : Row)
    (vd vs vq : value) (d : option Timestamp) (s q : float) :
  prepare_features df = Ok X ->
  df !! i = Some r ->
  r !! "ORDERDATE" = Some vd -> as_datetime vd = Ok d ->
  r !! "SALES" = Some vs -> as_number vs = Ok s ->
  r !! "QUANTITYORDERED" = Some vq -> as_number vq = Ok q ->
  exists p c st : float,
    X !! i = Some (map fillna0
      [s; q; dt_field dayofweek d; dt_field ts_month d; dt_field quarter d;
       is_weekend d; (s / q)%float; log1p s; p; c; st]).
Proof.
  intros HX Hi Hvd Hd Hvs Hs Hvq Hq.
  assert (Hlt : (i < length df)%nat) by (by eapply lookup_lt_Some).
  unfold prepare_features in HX.
  apply bind_Ok in HX as (dates & Hdates & HX).
  apply bind_Ok in Hdates as (date_cells & Hdc & Hdates).
  bind_inv HX sales_cells Hsc.
  bind_inv HX quantity_cells Hqc. bind_inv HX sales Hsales.
  bind_inv HX quantity Hquantity.
  bind_inv HX product Hproduct. bind_inv HX country Hcountry.
  bind_inv HX status Hstatus. injection HX as <-.
  destruct (traverse_lookup _ _ _ _ _ Hdc Hi) as (dc & Hdci & Hdc').
  destruct (traverse_lookup _ _ _ _ _ Hsc Hi) as (sc & Hsci & Hsc').
  destruct (traverse_lookup _ _ _ _ _ Hqc Hi) as (qc & Hqci & Hqc').
  rewrite Hvd in Hdc'. rewrite Hvs in Hsc'. rewrite Hvq in Hqc'.
  injection Hdc' as <-. injection Hsc' as <-. injection Hqc' as <-.
  destruct (traverse_lookup _ _ _ _ _ Hdates Hdci) as (d' & Hdi & Hd').
  destruct (traverse_lookup _ _ _ _ _ Hsales Hsci) as (s' & Hsi & Hs').
  destruct (traverse_lookup _ _ _ _ _ Hquantity Hqci) as (q' & Hqi & Hq').
  rewrite Hd in Hd'. rewrite Hs in Hs'. rewrite Hq in Hq'.
  injection Hd' as <-. injection Hs' as <-. injection Hq' as <-.
  unfold rows_of. rewrite !list_lookup_fmap, lookup_seq_lt by done.
  cbn [fmap option_fmap option_map list_fmap map plus].
  rewrite (nth_lookup_Some sales i nan s Hsi).
  rewrite (nth_lookup_Some quantity i nan q Hqi).
  rewrite (nth_lookup_Some (map (dt_field dayofweek) dates) i nan
             (dt_field dayofweek d)) by (by rewrite list_lookup_fmap, Hdi).
  rewrite (nth_lookup_Some (map (dt_field ts_month) dates) i nan
             (dt_field ts_month d)) by (by rewrite list_lookup_fmap, Hdi).
  rewrite (nth_lookup_Some (map (dt_field quarter) dates) i nan
             (dt_field quarter d)) by (by rewrite list_lookup_fmap, Hdi).
  rewrite (nth_lookup_Some (map is_weekend dates) i nan (is_weekend d))
    by (by rewrite list_lookup_fmap, Hdi).
  rewrite (nth_lookup_Some (zip_with PrimFloat.div sales quantity) i nan
             (s / q)%float) by (by rewrite lookup_zip_with, Hsi, Hqi).
  rewrite (nth_lookup_Some (map log1p sales) i nan (log1p s))
    by (by rewrite list_lookup_fmap, Hsi).
  by eexists _, _, _.
Qed.

(** Zero divided by zero is NaN. *)
Lemma zero_div_zero (x : float) :
  (x =? 0)%float = true -> is_nan (x / 0)%float = true.
Proof.
  unfold is_nan. rewrite !FloatAxioms.eqb_spec, FloatAxioms.div_spec.
  change (Prim2SF 0) with (S754_zero false).
  destruct (Prim2SF x) as [sx|sx| |sx mx ex]; try discriminate;
    try (destruct sx; discriminate). intros _. reflexivity.
Qed.

(** X5. A record with nothing ordered and nothing paid
    ([QUANTITYORDERED = 0], [SALES] zero) gets [sales_per_quantity] 0:
    the quotient 0/0 is NaN and [fillna(0)] replaces it. *)
Theorem zero_over_zero_is_clamped (df : DataFrame) (X : Matrix) (i : nat)
    (r : Row) (s : float) :
  prepare_features df = Ok X ->
  df !! i = Some r ->
  r !! "SALES" = Some (VFloat s) ->
  r !! "QUANTITYORDERED" = Some (VInt 0) ->
  (s =? 0)%float = true ->
  feature X i sales_per_quantity_ix = Some 0%float.
Proof.
  intros HX Hi Hs Hq Hz.
  rewrite (prepare_features_quotient df X i r s 0 HX Hi Hs Hq).
  change (float_of_Z 0) with 0%float. unfold fillna0.
  by rewrite (zero_div_zero s Hz).
Qed.

(** X6. A record whose order date is missing (NaT) gets 0 for
    [day_of_week], [month], [quarter] and [is_weekend]: the calendar
    fields of NaT are NaN, NaN is in no list, and [fillna(0)] replaces
    NaN.  So a missing date is encoded as month 0, quarter 0, a Monday. *)
Theorem missing_date_gives_zeros (df : DataFrame) (X : Matrix) (i : nat)
    (r : Row) :
  prepare_features df = Ok X ->
  df !! i = Some r ->
  r !! "ORDERDATE" = Some VNull ->
  feature X i 2 = Some 0%float /\ feature X i 3 = Some 0%float /\
  feature X i 4 = Some 0%float /\ feature X i 5 = Some 0%float.
Proof.
  intros HX Hi Hd.
  assert (Hcells : exists vs vq s q,
            r !! "SALES" = Some vs /\ as_number vs = Ok s /\
            r !! "QUANTITYORDERED" = Some vq /\ as_number vq = Ok q).
  { pose proof HX as HX'. unfold prepare_features in HX'.
    bind_inv HX' dates Hdates. bind_inv HX' sales_cells Hsc.
    bind_inv HX' quantity_cells Hqc. bind_inv HX' sales Hsales.
    bind_inv HX' quantity Hquantity.
    destruct (traverse_lookup _ _ _ _ _ Hsc Hi) as (vs & Hvsi & Hvs).
    destruct (traverse_lookup _ _ _ _ _ Hqc Hi) as (vq & Hvqi & Hvq).
    destruct (traverse_lookup _ _ _ _ _ Hsales Hvsi) as (s & _ & Hs).
    destruct (traverse_lookup _ _ _ _ _ Hquantity Hvqi) as (q & _ & Hq).
    exists vs, vq, s, q.
    destruct (r !! "SALES") as [vs'|]; [|done].
    destruct (r !! "QUANTITYORDERED") as [vq'|]; [|done].
    injection Hvs as ->. injection Hvq as ->. done. }
  destruct Hcells as (vs & vq & s & q & Hvs & Hs & Hvq & Hq).
  destruct (prepare_features_row df X i r VNull vs vq None s q
              HX Hi Hd eq_refl Hvs Hs Hvq Hq) as (p & c & st & Hrow).
  unfold feature. rewrite Hrow. by vm_compute.
Qed.

End FeatureRow.

Lemma zero_over_zero_is_clamped_witness :
  feature (toy_features zero_quantity_batch) 1 sales_per_quantity_ix =
  Some 0%float.
Proof.
  apply (@zero_over_zero_is_clamped Toy.numpy zero_quantity_batch
           (toy_features zero_quantity_batch) 1%nat
           (order 10101 0 0 (jan 2) "Planes" "USA" "Shipped") 0%float).
  - vm_compute. reflexivity.
  - reflexivity.
  - by_vm.
  - by_vm.
  - vm_compute. reflexivity.
Defined.

Lemma missing_date_gives_zeros_witness :
  feature (toy_features undated_batch) 1 2 = Some 0%float /\
  feature (toy_features undated_batch) 1 3 = Some 0%float /\
  feature (toy_features undated_batch) 1 4 = Some 0%float /\
  feature (toy_features undated_batch) 1 5 = Some 0%float.
Proof.
  apply (@missing_date_gives_zeros Toy.numpy undated_batch
           (toy_features undated_batch) 1%nat
           (<["ORDERDATE" := VNull]>
              (order 10101 2000 20 (jan 7) "Ships" "UK" "Shipped"))).
  - vm_compute. reflexivity.
  - reflexivity.
  - by_vm.
Defined.

(** ** Categorical codes within one batch *)

Module CategoryCodes.
Import Categories.

Lemma position_lookup s cats k :
  position s cats = Some k -> cats !! k = Some s.
Proof.
  revert k. induction cats as [|c cs IH]; intros k; [done|]. simpl.
  destruct (String.eqb s c) eqn:E.
  - apply String.eqb_eq in E as ->. by intros [= <-].
  - destruct (position s cs) as [k'|]; [|done]. simpl. intros [= <-].
    by apply IH.
Qed.

Lemma sorted_lookup_lt (l : list string) (a b : nat) (s t : string) :
  StronglySorted slt l -> l !! a = Some s -> l !! b = Some t ->
  (a < b)%nat -> slt s t.
Proof.
  intros Hl. revert a b. induction Hl as [|x l Hl IH Hx]; intros a b Ha Hb Hab.
  - done.
  - destruct b as [|b]; [lia|]. destruct a as [|a]; simpl in *.
    + injection Ha as <-. eapply Forall_forall in Hx; [exact Hx|].
      by eapply list_elem_of_lookup_2.
    + eapply IH; [exact Ha|exact Hb|lia].
Qed.

(** X7. Within one batch the codes lose nothing: two cells get the same
    code exactly when they hold the same value, a smaller code means a
    smaller value in string order, and the category list decodes each
    code back to the value. *)
Theorem codes_within_batch (col : list (option string)) (i j : nat)
    (s t : string) :
  col !! i = Some (Some s) ->
  col !! j = Some (Some t) ->
  exists a b : nat,
    categorical_codes col !! i = Some (Z.of_nat a) /\
    categorical_codes col !! j = Some (Z.of_nat b) /\
    categories col !! a = Some s /\
    categories col !! b = Some t /\
    (a = b <-> s = t) /\
    ((a < b)%nat <-> String_as_OT.lt s t).
Proof.
  intros Hi Hj.
  destruct (position_elem s (categories col)) as (a & Ha & Hsa).
  { apply elem_of_categories. by eapply list_elem_of_lookup_2. }
  destruct (position_elem t (categories col)) as (b & Hb & Htb).
  { apply elem_of_categories. by eapply list_elem_of_lookup_2. }
  pose proof (categories_sorted col) as Hsorted.
  exists a, b. unfold categorical_codes.
  rewrite !list_lookup_fmap, Hi, Hj. simpl. rewrite Ha, Hb.
  repeat split; try done.
  - intros ->. congruence.
  - intros ->. congruence.
  - intros Hab. by eapply sorted_lookup_lt.
  - intros Hst. destruct (Nat.lt_trichotomy a b) as [?|[->|Hba]]; [done| |].
    + assert (s = t) as -> by congruence. by destruct (slt_irrefl t).
    + pose proof (sorted_lookup_lt _ _ _ _ _ Hsorted Htb Hsa Hba) as Hts.
      destruct (slt_irrefl s). by eapply slt_trans.
Qed.

End CategoryCodes.

Lemma codes_within_batch_witness :
  exists a b : nat,
    categorical_codes [Some "Ships"; None; Some "Planes"] !! 0%nat
      = Some (Z.of_nat a) /\
    categorical_codes [Some "Ships"; None; Some "Planes"] !! 2%nat
      = Some (Z.of_nat b) /\
    categories [Some "Ships"; None; Some "Planes"] !! a = Some "Ships" /\
    categories [Some "Ships"; None; Some "Planes"] !! b = Some "Planes" /\
    (a = b <-> "Ships" = "Planes") /\
    ((a < b)%nat <-> String_as_OT.lt "Ships" "Planes").
Proof.
  apply (CategoryCodes.codes_within_batch
           [Some "Ships"; None; Some "Planes"] 0 2 "Ships" "Planes");
    reflexivity.
Defined.

(** ** Scoring a batch that already carries the result fields *)

Section Rescore.
Context `{np : Numpy} `{sk : Sklearn}.

(** X8. [predict] overwrites: on a record that already has the three
    result fields (a row of an earlier result, say) the output row has
    exactly the input's field names, and every field other than those
    three keeps its cell; the old score, flag and severity are replaced. *)
Theorem predict_overwrites_fields (self : SalesAnomalyDetector)
    (df res : DataFrame) (i : nat) (r : Row) :
  predict self df = Ok res ->
  df !! i = Some r ->
  (forall c, c ∈ result_fields -> is_Some (r !! c)) ->
  exists (r' : Row) (s : float) (p : Z),
    res !! i = Some r' /\
    dom r' = dom r /\
    (forall c, c ∉ result_fields -> r' !! c = r !! c) /\
    r' !! "anomaly_score" = Some (VFloat s) /\
    r' !! "is_anomaly" = Some (VBool (p =? -1)) /\
    r' !! "anomaly_severity" = Some (VFloat (abs s)).
Proof.
  intros H Hr Hfields.
  apply predict_inv in H as (_ & X & scores & labels & _ & _ & Ls & Ll & _ & E).
  destruct (predict_row_at df res scores labels Ls Ll E i) as [Hi _].
  destruct (Hi r Hr) as (s & p & _ & _ & Hres).
  exists (annotate r s p), s, p. split; [done|]. unfold annotate.
  assert (Hin : forall c, c ∈ result_fields -> c ∈ dom r).
  { intros c Hc. apply elem_of_dom. by apply Hfields. }
  unfold result_fields in *. split; [|split; [|split; [|split]]].
  - rewrite !dom_insert_L. apply set_eq. intros c.
    rewrite !elem_of_union, !elem_of_singleton. split; [|tauto].
    intros [->|[->|[->|?]]]; try done; apply Hin;
      rewrite !elem_of_cons; tauto.
  - intros c Hc. rewrite !elem_of_cons, elem_of_nil in Hc.
    rewrite !lookup_insert_ne; [done|intros <-; tauto..].
  - do 2 (rewrite lookup_insert_ne by done). by rewrite lookup_insert_eq.
  - rewrite lookup_insert_ne by done. by rewrite lookup_insert_eq.
  - by rewrite lookup_insert_eq.
Qed.

End Rescore.

Lemma predict_overwrites_fields_witness :
  exists (r' : Row) (s : float) (p : Z),
    rescored !! 0%nat = Some r' /\
    dom r' = dom (scored_order 1 (-0.25) (-1)) /\
    (forall c, c ∉ result_fields ->
               r' !! c = scored_order 1 (-0.25) (-1) !! c) /\
    r' !! "anomaly_score" = Some (VFloat s) /\
    r' !! "is_anomaly" = Some (VBool (p =? -1)) /\
    r' !! "anomaly_severity" = Some (VFloat (abs s)).
Proof.
  apply (@predict_overwrites_fields Toy.numpy Toy.sklearn toy_detector
           tied_results rescored 0%nat (scored_order 1 (-0.25) (-1))).
  - by_vm.
  - reflexivity.
  - intros c Hc. unfold result_fields in Hc.
    repeat (apply elem_of_cons in Hc as [->|Hc]);
      [| | |by apply elem_of_nil in Hc];
      apply (bool_decide_unpack _); vm_compute; exact I.
Defined.

(** ** Columns the features do not read *)

Lemma column_agree (c : string) (df1 df2 : DataFrame) :
  Forall2 (fun r1 r2 : Row => r1 !! c = r2 !! c) df1 df2 ->
  column c df1 = column c df2.
Proof.
  unfold column. induction 1 as [|r1 r2 df1 df2 Hr _ IH]; [done|].
  cbn [traverse]. by rewrite Hr, IH.
Qed.

Lemma annotate_agree (r : Row) (s : float) (p : Z) :
  agree_on required_columns r (annotate r s p).
Proof.
  intros c Hc. unfold annotate, required_columns in *.
  rewrite !elem_of_cons, elem_of_nil in Hc.
  destruct Hc as [->|[->|[->|[->|[->|[->|[]]]]]]];
    by rewrite !lookup_insert_ne.
Qed.

Lemma set_column_same (c : string) (vals : list value) (df : DataFrame) :
  length vals = length df ->
  (forall i r v, df !! i = Some r -> vals !! i = Some v -> r !! c = Some v) ->
  set_column c vals df = Ok df.
Proof.
  intros Hlen Hsame. unfold set_column. case_decide; [|done]. f_equal.
  apply list_eq. intros i. rewrite lookup_zip_with.
  destruct (df !! i) as [r|] eqn:Hr; [|done]. simpl.
  destruct (vals !! i) as [v|] eqn:Hv; simpl.
  - f_equal. apply insert_id. by eapply Hsame.
  - apply lookup_ge_None in Hv. apply lookup_lt_Some in Hr. lia.
Qed.

Section OtherColumns.
Context `{np : Numpy} `{sk : Sklearn}.

Lemma prepare_features_agree (df1 df2 : DataFrame) :
  Forall2 (agree_on required_columns) df1 df2 ->
  prepare_features df1 = prepare_features df2.
Proof.
  intros H. unfold prepare_features.
  assert (Hc : forall c, c ∈ required_columns -> column c df1 = column c df2).
  { intros c Hc. apply column_agree. eapply Forall2_impl; [exact H|].
    intros r1 r2 Hr. by apply Hr. }
  rewrite (Forall2_length _ _ _ H).
  rewrite !Hc by (unfold required_columns; rewrite !elem_of_cons; auto 10).
  reflexivity.
Qed.

(** X19. The features are computed from the six columns alone: two
    batches whose records agree, position by position, on ORDERDATE,
    SALES, QUANTITYORDERED, PRODUCTLINE, COUNTRY and STATUS get the same
    outcome from [prepare_features] (the same matrix, or the same
    exception), whatever other columns they carry. *)
Theorem features_read_six_columns (df1 df2 : DataFrame) :
  Forall2 (agree_on required_columns) df1 df2 ->
  prepare_features df1 = prepare_features df2.
Proof. apply prepare_features_agree. Qed.

(** X20. Scoring is idempotent: a result that [predict] returned, given
    back to [predict] of the same detector, is returned unchanged. *)
Theorem predict_idempotent (self : SalesAnomalyDetector) (df res : DataFrame) :
  predict self df = Ok res ->
  predict self res = Ok res.
Proof.
  unfold predict. destruct (is_fitted self); simpl; [|discriminate].
  intros H.
  bind_inv H features Hf. bind_inv H X HX.
  bind_inv H scores Hs. bind_inv H labels Hl.
  bind_inv H r1 H1. bind_inv H r2 H2. bind_inv H r3 H3.
  injection H as ->.
  apply set_column_Ok in H1 as (L1 & L1' & E1).
  apply set_column_Ok in H2 as (L2 & L2' & E2).
  apply set_column_Ok in H3 as (L3 & L3' & E3).
  rewrite length_map in L1, L2, L3.
  assert (Hrow : forall i r', res !! i = Some r' ->
            exists r s p, df !! i = Some r /\ scores !! i = Some s /\
                          labels !! i = Some p /\ r' = annotate r s p).
  { intros i r'. rewrite E3, E2, E1, !list_lookup_fmap.
    destruct (df !! i) as [r|]; simpl; [|done].
    destruct (scores !! i) as [s|]; simpl; [|done].
    destruct (labels !! i) as [p|]; simpl; [|done].
    intros [= <-]. by exists r, s, p. }
  assert (prepare_features res = Ok features) as ->.
  { rewrite <- Hf. symmetry. apply prepare_features_agree.
    apply Forall2_same_length_lookup. split; [lia|]. intros i r r' Hr Hr'.
    destruct (Hrow i r' Hr') as (r0 & s & p & Hr0 & _ & _ & ->).
    rewrite Hr in Hr0. injection Hr0 as <-. apply annotate_agree. }
  cbn [mbind result_bind]. rewrite HX. cbn [mbind result_bind].
  rewrite Hs. cbn [mbind result_bind]. rewrite Hl. cbn [mbind result_bind].
  rewrite (set_column_same "anomaly_score").
  2: { rewrite length_map. lia. }
  2: { intros i r' v Hr' Hv. rewrite list_lookup_fmap in Hv.
       destruct (Hrow i r' Hr') as (r & s & p & _ & Hsi & _ & ->).
       rewrite Hsi in Hv. injection Hv as <-. unfold annotate.
       do 2 (rewrite lookup_insert_ne by done). by rewrite lookup_insert_eq. }
  cbn [mbind result_bind]. rewrite (set_column_same "is_anomaly").
  2: { rewrite length_map. lia. }
  2: { intros i r' v Hr' Hv. rewrite list_lookup_fmap in Hv.
       destruct (Hrow i r' Hr') as (r & s & p & _ & _ & Hpi & ->).
       rewrite Hpi in Hv. injection Hv as <-. unfold annotate.
       rewrite lookup_insert_ne by done. by rewrite lookup_insert_eq. }
  cbn [mbind result_bind]. rewrite (set_column_same "anomaly_severity").
  2: { rewrite length_map. lia. }
  2: { intros i r' v Hr' Hv. rewrite list_lookup_fmap in Hv.
       destruct (Hrow i r' Hr') as (r & s & p & _ & Hsi & _ & ->).
       rewrite Hsi in Hv. injection Hv as <-. unfold annotate.
       by rewrite lookup_insert_eq. }
  reflexivity.
Qed.

End OtherColumns.

Lemma features_read_six_columns_witness :
  @prepare_features Toy.numpy plain_orders
  = @prepare_features Toy.numpy tied_results.
Proof.
  apply (@features_read_six_columns Toy.numpy plain_orders tied_results).
  unfold plain_orders, tied_results, scored_order. cbn [map].
  repeat constructor; apply annotate_agree.
Defined.

Lemma predict_idempotent_witness :
  @predict Toy.numpy Toy.sklearn toy_detector toy_results = Ok toy_results.
Proof.
  apply (@predict_idempotent Toy.numpy Toy.sklearn toy_detector batch8).
  by_vm.
Defined.

(** ** Any summary that is returned *)

Section SummaryAny.
Context `{np : Numpy}.

Lemma mask_flagged (df : DataFrame) (mask : list bool) :
  (column "is_anomaly" df ≫= traverse as_bool) = Ok mask ->
  boolean_index df mask = anomalous df.
Proof.
  unfold anomalous, column. revert mask.
  induction df as [|r df IH]; intros mask H.
  - by destruct mask.
  - apply bind_Ok in H as (cells & Hcells & Hmask). simpl in Hcells.
    destruct (r !! "is_anomaly") as [v|] eqn:Ev; [|done]. simpl in Hcells.
    destruct (traverse _ df) as [cells'|] eqn:Ecells; [|done].
    simpl in Hcells. injection Hcells as <-. simpl in Hmask.
    destruct (as_bool v) as [b|] eqn:Eb; [|done]. simpl in Hmask.
    destruct (traverse as_bool cells') as [mask'|] eqn:Emask; [|done].
    simpl in Hmask. injection Hmask as <-.
    rewrite filter_cons. cbn [boolean_index].
    rewrite (IH mask') by (apply bind_Ok; by exists cells').
    unfold flagged. rewrite Ev. destruct v; try done.
    simpl in Eb. injection Eb as <-. by destruct b0; case_decide.
Qed.

(** The two shapes a returned summary can have. *)
Lemma summary_inv (df : DataFrame) (s : Summary) :
  get_anomaly_summary df = Ok s ->
  (anomalous df = [] /\
   s = {| total_anomalies := 0; anomaly_rate := 0%float;
          message := Some "No anomalies detected"; detail := None |}) \/
  (anomalous df <> [] /\ df <> [] /\
   exists rows product country status top,
     traverse scored (anomalous df) = Ok rows /\
     traverse top_order (nsmallest 5 rows) = Ok top /\
     (column "PRODUCTLINE" (anomalous df) ≫= traverse as_category) = Ok product /\
     (column "COUNTRY" (anomalous df) ≫= traverse as_category) = Ok country /\
     (column "STATUS" (anomalous df) ≫= traverse as_category) = Ok status /\
     s = {| total_anomalies := length (anomalous df);
            anomaly_rate :=
              (float_of_nat (length (anomalous df))
               / float_of_nat (length df) * 100)%float;
            message := None;
            detail := Some
              {| avg_anomaly_score := series_mean rows.*1;
                 max_anomaly_score := series_min rows.*1;
                 anomaly_by_product := value_counts product;
                 anomaly_by_country := value_counts country;
                 anomaly_by_status := value_counts status;
                 top_anomalous_orders := top |} |}).
Proof.
  unfold get_anomaly_summary. intros H.
  bind_inv H msk Hmask. rewrite (mask_flagged df msk Hmask) in H.
  case_decide as Hz.
  - left. split; [by apply nil_length_inv|]. by injection H as <-.
  - right. unfold py_truediv in H. case_decide as Hz'; [done|].
    cbn [mbind result_bind] in H.
    bind_inv H rows Hrows. bind_inv H product Hp. bind_inv H country Hc.
    bind_inv H status Hs. bind_inv H tops Htop. injection H as <-.
    split; [by intros Hn; rewrite Hn in Hz|].
    split; [by intros Hn; rewrite Hn in Hz'|].
    by exists rows, product, country, status, tops.
Qed.

Lemma filter_nan_split {A} (l : list (float * A)) :
  (length (filter (fun x => is_nan x.1 = false) l)
   + length (filter (fun x => is_nan x.1 = true) l) = length l)%nat.
Proof.
  induction l as [|x l IH]; [done|]. rewrite !filter_cons.
  destruct (is_nan x.1); repeat case_decide; try done; simpl; lia.
Qed.

Lemma nsmallest_length {A} (n : nat) (l : list (float * A)) :
  length (nsmallest n l) = (n `min` length l)%nat.
Proof.
  unfold nsmallest.
  rewrite length_take, length_app, Ranking.sort_by_score_perm.
  by rewrite filter_nan_split.
Qed.

Lemma nsmallest_subseteq {A} (n : nat) (l : list (float * A)) (x : float * A) :
  x ∈ nsmallest n l -> x ∈ l.
Proof.
  unfold nsmallest. intros Hx. apply subseteq_take in Hx.
  apply elem_of_app in Hx as [Hx|Hx].
  - rewrite Ranking.sort_by_score_perm in Hx.
    by apply list_elem_of_filter in Hx as [_ ?].
  - by apply list_elem_of_filter in Hx as [_ ?].
Qed.

Lemma traverse_elem {A B} (f : A -> result B) (l : list A) (l' : list B) (y : B) :
  traverse f l = Ok l' -> y ∈ l' -> exists x, x ∈ l /\ f x = Ok y.
Proof.
  revert l'. induction l as [|a l IH]; intros l' H Hy; simpl in H.
  - injection H as <-. by apply elem_of_nil in Hy.
  - destruct (f a) as [b|] eqn:Eb; [|done]. simpl in H.
    destruct (traverse f l) as [bs|] eqn:Ebs; [|done]. simpl in H.
    injection H as <-. apply elem_of_cons in Hy as [->|Hy].
    + exists a. split; [left|done].
    + destruct (IH bs eq_refl Hy) as (x & Hx & Hfx). exists x.
      split; [by right|done].
Qed.

(** X9. Whenever [get_anomaly_summary] returns, [total_anomalies] is the
    number of rows whose [is_anomaly] is true and is at most the number
    of rows; the summary has the message and no further keys exactly when
    that number is 0, and otherwise lists min(5, total) top orders. *)
Theorem summary_counts (results_df : DataFrame) (s : Summary) :
  get_anomaly_summary results_df = Ok s ->
  total_anomalies s = length (anomalous results_df) /\
  (total_anomalies s <= length results_df)%nat /\
  match detail s with
  | None =>
      total_anomalies s = O /\ message s = Some "No anomalies detected"
  | Some d =>
      (0 < total_anomalies s)%nat /\ message s = None /\
      length (top_anomalous_orders d) = (5 `min` total_anomalies s)%nat
  end.
Proof.
  intros H. pose proof (length_filter (fun r => flagged r = true) results_df) as Hle.
  fold (anomalous results_df) in Hle.
  apply summary_inv in H as [[Hnil ->]|(Hne & _ & rows & p & c & st & top & Hrows & Htop & _ & _ & _ & ->)].
  - rewrite Hnil. simpl. repeat split; lia.
  - cbn [total_anomalies detail message top_anomalous_orders].
    split; [done|]. split; [done|]. split.
    { destruct (anomalous results_df); [done|simpl; lia]. }
    split; [done|].
    apply traverse_length in Htop. apply traverse_length in Hrows.
    by rewrite Htop, nsmallest_length, Hrows.
Qed.

(** X10. A non-empty frame without an [is_anomaly] column (a raw batch
    rather than a [predict] result) makes [get_anomaly_summary] raise
    [KeyError] for that column. *)
Theorem summary_needs_flag (df : DataFrame) :
  df <> [] ->
  Forall (fun r : Row => r !! "is_anomaly" = None) df ->
  get_anomaly_summary df = Raise (KeyError "is_anomaly").
Proof.
  intros Hne Hdf. destruct Hdf as [|r df Hr _]; [done|].
  unfold get_anomaly_summary, column. simpl. by rewrite Hr.
Qed.

(** X11. Every entry of [top_anomalous_orders] is a flagged row of the
    result set, with that row's identifier, sale amount and score: an
    unflagged order is never listed. *)
Theorem top_orders_are_flagged (results_df : DataFrame) (s : Summary)
    (d : AnomalyDetail) (o : TopOrder) :
  get_anomaly_summary results_df = Ok s ->
  detail s = Some d ->
  o ∈ top_anomalous_orders d ->
  exists (r : Row) (v : value),
    r ∈ results_df /\
    r !! "is_anomaly" = Some (VBool true) /\
    r !! "ORDERNUMBER" = Some (ORDERNUMBER o) /\
    r !! "SALES" = Some (SALES o) /\
    r !! "anomaly_score" = Some v /\
    as_number v = Ok (anomaly_score o).
Proof.
  intros H Hd Ho.
  apply summary_inv in H as [[_ ->]|(_ & _ & rows & p & c & st & top & Hrows & Htop & _ & _ & _ & ->)];
    [done|].
  cbn [detail] in Hd. injection Hd as <-. cbn [top_anomalous_orders] in Ho.
  destruct (traverse_elem _ _ _ _ Htop Ho) as (x & Hx & Hox).
  apply nsmallest_subseteq in Hx.
  destruct (traverse_elem _ _ _ _ Hrows Hx) as (r & Hr & Hrx).
  apply list_elem_of_filter in Hr as [Hfl Hr].
  unfold scored in Hrx. destruct (r !! "anomaly_score") as [v|] eqn:Ev; [|done].
  destruct (as_number v) as [sc|] eqn:Esc; [|done]. simpl in Hrx.
  injection Hrx as <-. unfold top_order in Hox. simpl in Hox.
  destruct (r !! "ORDERNUMBER") as [on|] eqn:Eon; [|done].
  destruct (r !! "SALES") as [sa|] eqn:Esa; [|done]. injection Hox as <-.
  exists r, v. simpl. repeat split; try done.
  unfold flagged in Hfl. destruct (r !! "is_anomaly") as [[| | |[]| |]|]; done.
Qed.

End SummaryAny.

Lemma tied_summary_Ok :
  @get_anomaly_summary Toy.numpy tied_results = Ok tied_summary.
Proof. by_vm. Qed.

Lemma tied_detail_Some : detail tied_summary = Some tied_detail.
Proof. by_vm. Qed.

Lemma summary_counts_witness :
  total_anomalies tied_summary = length (anomalous tied_results) /\
  (total_anomalies tied_summary <= length tied_results)%nat /\
  match detail tied_summary with
  | None =>
      total_anomalies tied_summary = O /\
      message tied_summary = Some "No anomalies detected"
  | Some d =>
      (0 < total_anomalies tied_summary)%nat /\ message tied_summary = None /\
      length (top_anomalous_orders d) = (5 `min` total_anomalies tied_summary)%nat
  end.
Proof.
  apply (@summary_counts Toy.numpy tied_results tied_summary).
  exact tied_summary_Ok.
Defined.

Lemma summary_needs_flag_witness :
  @get_anomaly_summary Toy.numpy batch3 = Raise (KeyError "is_anomaly").
Proof.
  apply (@summary_needs_flag Toy.numpy batch3).
  - discriminate.
  - repeat constructor.
Defined.

Lemma top_orders_are_flagged_witness :
  exists (r : Row) (v : value),
    r ∈ tied_results /\
    r !! "is_anomaly" = Some (VBool true) /\
    r !! "ORDERNUMBER" = Some (VInt 2) /\
    r !! "SALES" = Some (VFloat 1000) /\
    r !! "anomaly_score" = Some v /\
    as_number v = Ok (-0.5)%float.
Proof.
  apply (@top_orders_are_flagged Toy.numpy tied_results tied_summary tied_detail
           {| ORDERNUMBER := VInt 2; SALES := VFloat 1000;
              anomaly_score := (-0.5)%float |}).
  - exact tied_summary_Ok.
  - exact tied_detail_Some.
  - apply (list_elem_of_lookup_2 _ 0%nat). by_vm.
Defined.

(** ** The ranking and the extreme score agree *)

Lemma leb_antisym_eqb (x y : float) :
  (x <=? y)%float = true -> (y <=? x)%float = true -> (x =? y)%float = true.
Proof.
  rewrite !FloatAxioms.leb_spec, FloatAxioms.eqb_spec.
  destruct (Prim2SF x), (Prim2SF y); FloatOrder.sf_cases.
Qed.

Section Extreme.
Context `{np : Numpy}.

(** X12. In the summary of a result set with flagged rows, the first of
    the top orders has the score reported as [max_anomaly_score]: the
    ranking and the minimum agree. *)
Theorem top_order_has_extreme_score (results_df : DataFrame) (s : Summary)
    (d : AnomalyDetail) :
  Forall (fun r => result_row r = true) results_df ->
  get_anomaly_summary results_df = Ok s ->
  detail s = Some d ->
  exists o : TopOrder,
    head (top_anomalous_orders d) = Some o /\
    (anomaly_score o =? max_anomaly_score d)%float = true.
Proof.
  intros Hrows H Hd.
  apply summary_inv in H as [[_ ->]|(Hne & _ & rows & p & c & st & tops & Hsc & Htop & _ & _ & _ & ->)];
    [done|].
  cbn [detail] in Hd. injection Hd as <-.
  cbn [top_anomalous_orders max_anomaly_score].
  set (anomalies := anomalous results_df) in *.
  assert (Han : Forall (fun r => result_row r = true) anomalies).
  { apply Forall_forall. intros r Hr. apply list_elem_of_filter in Hr as [_ Hr].
    by eapply Forall_forall in Hrows. }
  rewrite (scored_rows anomalies Han) in Hsc. injection Hsc as <-.
  assert (Hscore : Forall has_score (with_score <$> anomalies)).
  { apply Forall_fmap, Forall_forall. intros r Hr.
    apply list_elem_of_filter in Hr as [Hfl Hr].
    eapply Forall_forall in Hrows; [|exact Hr].
    destruct (result_row_inv r Hrows) as (b & sc & _ & _ & _ & Hb & _ & Hs & Hn & _).
    unfold has_score. cbn. rewrite Hs. apply Hn. congruence. }
  rewrite Ranking.nsmallest_scored in Htop by done.
  pose proof (Ranking.sort_by_score_perm (with_score <$> anomalies)) as Hperm.
  pose proof (Ranking.sort_by_score_sorted _ Hscore) as Hsorted.
  destruct (sort_by_score (with_score <$> anomalies)) as [|h tl] eqn:Esort.
  { apply Permutation_nil_l in Hperm. symmetry in Hperm.
    apply fmap_nil_inv in Hperm. done. }
  cbn [take traverse] in Htop.
  destruct (top_order h) as [o|] eqn:Eo; [|done]. cbn [mbind result_bind] in Htop.
  destruct (traverse top_order (take 4 tl)) as [os|]; [|done].
  cbn [mbind result_bind] in Htop. injection Htop as <-.
  exists o. split; [done|].
  assert (Hoh : anomaly_score o = h.1).
  { unfold top_order in Eo. destruct (h.2 !! "ORDERNUMBER"); [|done].
    destruct (h.2 !! "SALES"); [|done]. by injection Eo as <-. }
  rewrite Hoh.
  destruct (Ranking.series_min_least (with_score <$> anomalies).*1) as [Hmin Hleast].
  { intros Hnil. apply fmap_nil_inv, fmap_nil_inv in Hnil. done. }
  { apply Forall_fmap. eapply Forall_impl; [exact Hscore|]. by intros x Hx. }
  apply StronglySorted_inv in Hsorted as [_ Hh].
  apply leb_antisym_eqb.
  - apply list_elem_of_fmap in Hmin as (x & Hx & Hxin).
    rewrite <- Hperm in Hxin. apply elem_of_cons in Hxin as [->|Hxin].
    + rewrite Hx. apply FloatOrder.leb_refl.
      assert (Hhin : h ∈ with_score <$> anomalies) by (rewrite <- Hperm; left).
      by eapply Forall_forall in Hscore.
    + rewrite Hx. by eapply Forall_forall in Hh.
  - eapply Forall_forall in Hleast; [exact Hleast|].
    apply list_elem_of_fmap. exists h. split; [done|]. rewrite <- Hperm. left.
Qed.

End Extreme.

Lemma top_order_has_extreme_score_witness :
  exists o : TopOrder,
    head (top_anomalous_orders tied_detail) = Some o /\
    (anomaly_score o =? max_anomaly_score tied_detail)%float = true.
Proof.
  apply (@top_order_has_extreme_score Toy.numpy tied_results tied_summary).
  - apply (bool_decide_unpack _). vm_compute. exact I.
  - exact tied_summary_Ok.
  - exact tied_detail_Some.
Defined.

(** ** [detect_sales_anomalies]: results and summary fit together *)

Section Detect.
Context `{np : Numpy} `{sk : Sklearn}.

(** X13. When [detect_sales_anomalies] returns, the results have one row
    per record of the batch, each the record at that position with the
    three fields set, and the summary's [total_anomalies] is the number
    of rows of those very results whose [is_anomaly] is true; so it is at
    most the size of the batch. *)
Theorem detect_results_and_summary (g : Rng) (df : DataFrame) (c : float)
    (results : DataFrame) (summary : Summary) :
  detect_sales_anomalies g df c = Ok (results, summary) ->
  length results = length df /\
  (forall i r, df !! i = Some r ->
     exists s p, results !! i = Some (annotate r s p)) /\
  total_anomalies summary = length (anomalous results) /\
  (total_anomalies summary <= length df)%nat.
Proof.
  unfold detect_sales_anomalies. intros H.
  destruct (fit g (init c) df) as [detector [[]|e]]; [|done].
  bind_inv H res Hres. bind_inv H sm Hsm. injection H as <- <-.
  apply predict_inv in Hres as (_ & X & scores & labels & _ & _ & Ls & Ll & Lr & E).
  assert (Htotal : total_anomalies sm = length (anomalous res)).
  { apply summary_inv in Hsm as [[Hnil ->]|(_ & _ & rows & p & co & st & tops & _ & _ & _ & _ & _ & ->)];
      [by rewrite Hnil|done]. }
  split; [done|]. split.
  - intros i r Hr.
    destruct (predict_row_at df res scores labels Ls Ll E i) as [Hi _].
    destruct (Hi r Hr) as (s & p & _ & _ & Hri). by exists s, p.
  - split; [done|]. rewrite Htotal, <- Lr. apply length_filter.
Qed.

End Detect.

Lemma detect_results_and_summary_witness :
  length toy_results = length batch8 /\
  (forall i r, batch8 !! i = Some r ->
     exists s p, toy_results !! i = Some (annotate r s p)) /\
  total_anomalies
    (match @get_anomaly_summary Toy.numpy toy_results with
     | Ok s => s
     | Raise _ => tied_summary
     end) = length (anomalous toy_results) /\
  (total_anomalies
     (match @get_anomaly_summary Toy.numpy toy_results with
      | Ok s => s
      | Raise _ => tied_summary
      end) <= length batch8)%nat.
Proof.
  apply (@detect_results_and_summary Toy.numpy Toy.sklearn 7 batch8
           default_contamination). by_vm.
Defined.

(** ** The frequency mappings add up *)

Section Counts.
Context `{np : Numpy}.

Lemma count_total_insert (m : gmap string nat) (k : string) (n : nat) :
  m !! k = None -> count_total (<[k := n]> m) = (n + count_total m)%nat.
Proof.
  intros Hk. unfold count_total. rewrite map_fold_insert_L; [done| |done].
  intros. lia.
Qed.

Lemma value_counts_total (col : list (option string)) :
  count_total (value_counts col) = length (filter is_Some col).
Proof.
  induction col as [|[k|] col IH].
  - done.
  - change (value_counts (Some k :: col))
      with (<[k := S (default O (value_counts col !! k))]> (value_counts col)).
    rewrite filter_cons.
    case_decide as Hs; [|by destruct Hs]. simpl. rewrite <- IH.
    destruct (value_counts col !! k) as [n|] eqn:Ek; simpl.
    + rewrite <- (insert_delete_eq (value_counts col)).
      rewrite count_total_insert by apply lookup_delete_eq.
      rewrite <- (insert_delete_id (value_counts col) k n Ek) at 2.
      rewrite count_total_insert by apply lookup_delete_eq. lia.
    + by rewrite count_total_insert.
  - change (value_counts (None :: col)) with (value_counts col).
    rewrite filter_cons.
    case_decide as Hs; [by destruct Hs as [? [=]]|]. done.
Qed.

Lemma category_read (name : string) (rows : DataFrame)
    (col : list (option string)) :
  (column name rows ≫= traverse as_category) = Ok col ->
  col = category_of name <$> rows.
Proof.
  unfold column. revert col. induction rows as [|r rows IH]; intros col H.
  - by injection H as <-.
  - apply bind_Ok in H as (cells & Hcells & Hcol). simpl in Hcells.
    destruct (r !! name) as [v|] eqn:Ev; [|done]. simpl in Hcells.
    destruct (traverse _ rows) as [cells'|] eqn:Ecells; [|done].
    simpl in Hcells. injection Hcells as <-. simpl in Hcol.
    destruct (as_category v) as [k|] eqn:Ek; [|done]. simpl in Hcol.
    destruct (traverse as_category cells') as [col'|] eqn:Ecol; [|done].
    simpl in Hcol. injection Hcol as <-.
    rewrite fmap_cons, <- (IH col') by (apply bind_Ok; by exists cells').
    f_equal. unfold category_of. rewrite Ev.
    destruct v; simpl in Ek; try discriminate Ek; by injection Ek as <-.
Qed.

Lemma category_total (name : string) (rows : DataFrame)
    (col : list (option string)) :
  (column name rows ≫= traverse as_category) = Ok col ->
  count_total (value_counts col) =
  length (filter (fun r => is_Some (category_of name r)) rows).
Proof.
  intros H. apply category_read in H as ->. rewrite value_counts_total.
  induction rows as [|r rows IH]; [done|].
  rewrite fmap_cons, !filter_cons.
  repeat case_decide; simpl; try done. by rewrite IH.
Qed.

(** X14. In a returned summary, the counts of each frequency mapping add
    up to the number of flagged rows whose cell in that column is not
    missing; so each adds up to at most [total_anomalies]. *)
Theorem category_counts_add_up (results_df : DataFrame) (s : Summary)
    (d : AnomalyDetail) :
  get_anomaly_summary results_df = Ok s ->
  detail s = Some d ->
  count_total (anomaly_by_product d) =
    length (filter (fun r => is_Some (category_of "PRODUCTLINE" r))
                   (anomalous results_df)) /\
  count_total (anomaly_by_country d) =
    length (filter (fun r => is_Some (category_of "COUNTRY" r))
                   (anomalous results_df)) /\
  count_total (anomaly_by_status d) =
    length (filter (fun r => is_Some (category_of "STATUS" r))
                   (anomalous results_df)) /\
  (count_total (anomaly_by_product d) <= total_anomalies s)%nat /\
  (count_total (anomaly_by_country d) <= total_anomalies s)%nat /\
  (count_total (anomaly_by_status d) <= total_anomalies s)%nat.
Proof.
  intros H Hd.
  apply summary_inv in H as [[_ ->]|(_ & _ & rows & p & c & st & tops & _ & _ & Hp & Hc & Hst & ->)];
    [done|].
  cbn [detail] in Hd. injection Hd as <-.
  cbn [anomaly_by_product anomaly_by_country anomaly_by_status total_anomalies].
  rewrite (category_total _ _ _ Hp), (category_total _ _ _ Hc),
    (category_total _ _ _ Hst).
  repeat split; try done; apply length_filter.
Qed.

End Counts.

Lemma category_counts_add_up_witness :
  count_total (anomaly_by_product tied_detail) =
    length (filter (fun r => is_Some (category_of "PRODUCTLINE" r))
                   (anomalous tied_results)) /\
  count_total (anomaly_by_country tied_detail) =
    length (filter (fun r => is_Some (category_of "COUNTRY" r))
                   (anomalous tied_results)) /\
  count_total (anomaly_by_status tied_detail) =
    length (filter (fun r => is_Some (category_of "STATUS" r))
                   (anomalous tied_results)) /\
  (count_total (anomaly_by_product tied_detail) <= total_anomalies tied_summary)%nat /\
  (count_total (anomaly_by_country tied_detail) <= total_anomalies tied_summary)%nat /\
  (count_total (anomaly_by_status tied_detail) <= total_anomalies tied_summary)%nat.
Proof.
  apply (@category_counts_add_up Toy.numpy tied_results tied_summary tied_detail).
  - exact tied_summary_Ok.
  - exact tied_detail_Some.
Defined.

(** * Properties of the insights report *)

Module InsightSort.

Section Keyed.
Context {A : Type}.
Implicit Types (x : nat * A) (l : list (nat * A)).

Lemma insert_by_rank_perm x l : insert_by_rank x l ≡ₚ x :: l.
Proof.
  induction l as [|y l IH]; simpl; [done|].
  destruct (x.1 <=? y.1)%nat; [done|]. rewrite IH. apply Permutation_swap.
Qed.

Lemma sort_perm l : foldr insert_by_rank [] l ≡ₚ l.
Proof.
  induction l as [|x l IH]; simpl; [done|].
  by rewrite insert_by_rank_perm, IH.
Qed.

Lemma insert_by_rank_sorted x l :
  StronglySorted (fun a b => (a.1 <= b.1)%nat) l ->
  StronglySorted (fun a b => (a.1 <= b.1)%nat) (insert_by_rank x l).
Proof.
  induction 1 as [|y l Hs IH Hy]; simpl.
  - repeat constructor.
  - destruct (x.1 <=? y.1)%nat eqn:E.
    + apply Nat.leb_le in E. constructor; [by constructor|].
      constructor; [done|]. eapply Forall_impl; [exact Hy|].
      intros z Hz. simpl in *. lia.
    + apply Nat.leb_gt in E. constructor; [done|].
      apply Forall_forall. intros z Hz. rewrite insert_by_rank_perm in Hz.
      apply elem_of_cons in Hz as [->|Hz]; [simpl; lia|].
      by eapply Forall_forall in Hy.
Qed.

Lemma sort_sorted l :
  StronglySorted (fun a b => (a.1 <= b.1)%nat) (foldr insert_by_rank [] l).
Proof.
  induction l as [|x l IH]; simpl; [constructor|].
  by apply insert_by_rank_sorted.
Qed.

Lemma insert_by_rank_stable (k : nat) x l :
  filter (fun z => z.1 = k) (insert_by_rank x l) =
  filter (fun z => z.1 = k) (x :: l).
Proof.
  induction l as [|y l IH]; simpl; [done|].
  destruct (x.1 <=? y.1)%nat eqn:E; [done|]. apply Nat.leb_gt in E.
  rewrite (filter_cons _ y), IH, !(filter_cons _ x), !(filter_cons _ y).
  repeat case_decide; try done. lia.
Qed.

Lemma sort_stable (k : nat) l :
  filter (fun z => z.1 = k) (foldr insert_by_rank [] l) =
  filter (fun z => z.1 = k) l.
Proof.
  induction l as [|x l IH]; simpl; [done|].
  by rewrite insert_by_rank_stable, !filter_cons, IH.
Qed.

End Keyed.

Lemma keyed_insights (l : list Insight) (keyed : list (nat * Insight)) :
  traverse (fun x => impact ← item x "impact";
                     Ok (impact_order impact, x)) l = Ok keyed ->
  keyed = ranked <$> l.
Proof.
  revert keyed. induction l as [|x l IH]; intros keyed H; cbn [traverse] in H.
  - by injection H as <-.
  - bind_inv H y Hy. bind_inv H keyed' Hkeyed. injection H as <-.
    bind_inv Hy i Hi. injection Hy as <-.
    rewrite fmap_cons, <- (IH keyed' Hkeyed).
    f_equal. unfold ranked, rank_of. unfold item in Hi.
    destruct (x !! "impact"); [by injection Hi as ->|done].
Qed.

Lemma filter_ranked (k : nat) (l : list Insight) :
  filter (fun z : nat * Insight => z.1 = k) (ranked <$> l) =
  ranked <$> filter (fun x => rank_of x = k) l.
Proof.
  induction l as [|x l IH]; [done|].
  rewrite fmap_cons, !filter_cons, IH. cbn [ranked fst].
  repeat case_decide; reflexivity.
Qed.

Lemma sorted_ranked (l : list Insight) :
  StronglySorted (fun a b : nat * Insight => (a.1 <= b.1)%nat) (ranked <$> l) ->
  StronglySorted rank_le l.
Proof.
  induction l as [|x l IH]; [constructor|]. rewrite fmap_cons. intros Hs.
  apply StronglySorted_inv in Hs as [Hl Hx]. constructor; [by apply IH|].
  rewrite Forall_fmap in Hx. eapply Forall_impl; [exact Hx|].
  intros y Hy. exact Hy.
Qed.

(** X15. When [generate_all_insights] returns, its list holds exactly the
    insights of the three generators, ordered by impact (critical, high,
    medium, low, anything else), insights of equal impact staying in
    generation order: trend, then product, then customer. *)
Theorem all_insights_sorted_by_impact
    (trend product customer all_insights : list Insight) :
  generate_all_insights (Ok trend) (Ok product) (Ok customer) = Ok all_insights ->
  all_insights ≡ₚ trend ++ product ++ customer /\
  StronglySorted rank_le all_insights /\
  forall k : nat,
    filter (fun x => rank_of x = k) all_insights =
    filter (fun x => rank_of x = k) (trend ++ product ++ customer).
Proof.
  unfold generate_all_insights, sort_by_impact. cbn [mbind result_bind].
  set (l := trend ++ product ++ customer). intros H.
  bind_inv H keyed Hkeyed. injection H as <-.
  apply keyed_insights in Hkeyed as ->.
  set (sorted := foldr insert_by_rank [] (ranked <$> l)).
  assert (Hperm : sorted ≡ₚ ranked <$> l) by apply sort_perm.
  assert (Hsorted : sorted = ranked <$> sorted.*2).
  { rewrite <- list_fmap_compose. rewrite <- (list_fmap_id sorted) at 1.
    apply Forall_fmap_ext_1, Forall_forall. intros x Hx. rewrite Hperm in Hx.
    apply list_elem_of_fmap in Hx as (y & -> & _). done. }
  split; [|split].
  - rewrite Hperm, <- list_fmap_compose.
    by rewrite (list_fmap_ext (snd ∘ ranked) id l), list_fmap_id.
  - apply sorted_ranked. rewrite <- Hsorted. apply sort_sorted.
  - intros k. pose proof (sort_stable k (ranked <$> l)) as Hst.
    fold sorted in Hst. rewrite Hsorted, !filter_ranked in Hst.
    apply (f_equal (fmap snd)) in Hst. rewrite <- !list_fmap_compose in Hst.
    by rewrite !(list_fmap_ext (snd ∘ ranked) id), !list_fmap_id in Hst.
Qed.

End InsightSort.

Module InsightReport.

Lemma add_to_type_members t x groups :
  members (add_to_type t x groups) ≡ₚ members groups ++ [x].
Proof.
  unfold members. induction groups as [|[t' xs] groups IH]; simpl.
  - done.
  - destruct (String.eqb t t'); simpl.
    + rewrite <- !(assoc_L (++)). f_equiv. apply Permutation_app_comm.
    + rewrite IH. by rewrite (assoc_L (++)).
Qed.

Lemma group_by_type_members acc insights groups :
  group_by_type acc insights = Ok groups ->
  members groups ≡ₚ members acc ++ insights.
Proof.
  revert acc. induction insights as [|x rest IH]; intros acc H; simpl in H.
  - injection H as <-. by rewrite app_nil_r.
  - bind_inv H t Ht. rewrite (IH _ H), add_to_type_members.
    by rewrite <- (assoc_L (++)).
Qed.

Lemma group_by_type_returns acc insights :
  Forall has_entry_keys insights ->
  exists groups, group_by_type acc insights = Ok groups.
Proof.
  intros Hall. revert acc.
  induction Hall as [|x rest ([t Ht] & _) _ IH]; intros acc; simpl.
  - by eexists.
  - unfold item. rewrite Ht. simpl. apply IH.
Qed.

Section Render.
Context `{py : Python}.

Lemma append_insight_cases (report : string) (x : Insight) :
  has_entry_keys x ->
  match x !! "recommendation" with
  | Some _ => exists out, append_insight report x = Ok out
  | None => append_insight report x = Raise (KeyError "recommendation")
  end.
Proof.
  intros (_ & [i Hi] & [t Ht] & [n Hn]). unfold append_insight, item.
  rewrite Hi, Ht, Hn. cbn [mbind result_bind].
  destruct (x !! "recommendation"); [by eexists|done].
Qed.

Lemma append_insights_cases (report : string) (xs : list Insight) :
  Forall has_entry_keys xs ->
  (recommended xs -> exists out, append_insights report xs = Ok out) /\
  (~ recommended xs ->
   append_insights report xs = Raise (KeyError "recommendation")).
Proof.
  unfold recommended. intros Hall. revert report.
  induction Hall as [|x rest Hx _ IH]; intros report; simpl.
  - split; [by eexists|]. intros Hn. destruct Hn. constructor.
  - pose proof (append_insight_cases report x Hx) as Hcase.
    destruct (x !! "recommendation") as [r|] eqn:Er.
    + destruct Hcase as [out ->]. cbn [mbind result_bind].
      destruct (IH out) as [IHok IHraise]. split.
      * intros Hrec. apply Forall_cons in Hrec as [_ Hrec]. by apply IHok.
      * intros Hn. apply IHraise. intros Hrec. apply Hn.
        constructor; [by rewrite Er|done].
    + rewrite Hcase. cbn [mbind result_bind]. split; [|done].
      intros Hrec. apply Forall_cons in Hrec as [[? Hsome] _].
      by rewrite Er in Hsome.
Qed.

Lemma append_sections_cases (report : string)
    (groups : list (string * list Insight)) :
  Forall has_entry_keys (members groups) ->
  (recommended (members groups) ->
   exists out, append_sections report groups = Ok out) /\
  (~ recommended (members groups) ->
   append_sections report groups = Raise (KeyError "recommendation")).
Proof.
  unfold members, recommended. revert report.
  induction groups as [|[t xs] groups IH]; intros report Hall; simpl in *.
  - split; [by eexists|]. intros Hn. destruct Hn. constructor.
  - apply Forall_app in Hall as [Hxs Hrest].
    destruct (append_insights_cases
                (report +:+ "## " +:+ str_title t +:+ " Insights" +:+ nl +:+ nl)
                xs Hxs) as [Hok Hraise].
    destruct (decide (recommended xs)) as [Hhead|Hhead].
    + destruct (Hok Hhead) as [out ->]. cbn [mbind result_bind].
      destruct (IH out Hrest) as [IHok IHraise]. split.
      * intros Hrec. apply Forall_app in Hrec as [_ Hrec]. by apply IHok.
      * intros Hn. apply IHraise. intros Hrec. apply Hn. by apply Forall_app.
    + rewrite (Hraise Hhead). cbn [mbind result_bind]. split; [|done].
      intros Hrec. apply Forall_app in Hrec as [? _]. done.
Qed.

Lemma append_report_raises (now : string) (insights : list Insight) :
  Forall has_entry_keys insights ->
  (recommended insights ->
   exists report, format_insights_report now insights = Ok report) /\
  (~ recommended insights ->
   format_insights_report now insights = Raise (KeyError "recommendation")).
Proof.
  intros Hall. destruct insights as [|x rest].
  { split; [by eexists|]. intros Hn. destruct Hn. constructor. }
  unfold format_insights_report.
  destruct (group_by_type_returns [] (x :: rest) Hall) as [groups Hgroups].
  rewrite Hgroups. cbn [mbind result_bind].
  pose proof (group_by_type_members _ _ _ Hgroups) as Hperm. simpl in Hperm.
  assert (Hkeys : Forall has_entry_keys (members groups)) by (by rewrite Hperm).
  destruct (append_sections_cases
              (("# Sales Data Insights Report" +:+ nl +:+ nl)
               +:+ "Generated on: " +:+ now +:+ nl +:+ nl) groups Hkeys)
    as [Hok Hraise].
  unfold recommended in *. split.
  - intros Hrec. apply Hok. by rewrite Hperm.
  - intros Hn. apply Hraise. by rewrite Hperm.
Qed.

(** X16. Given insights that all have [type], [impact], [title] and
    [insight], [format_insights_report] returns a report when every one
    of them also has [recommendation], and raises [KeyError] for
    [recommendation] when one of them lacks it. *)
Theorem report_needs_recommendation (now : string) (insights : list Insight) :
  Forall has_entry_keys insights ->
  (recommended insights ->
   exists report, format_insights_report now insights = Ok report) /\
  (~ recommended insights ->
   format_insights_report now insights = Raise (KeyError "recommendation")).
Proof. apply append_report_raises. Qed.

Lemma keyed_returns (l : list Insight) :
  Forall has_entry_keys l ->
  exists keyed,
    traverse (fun x => impact ← item x "impact";
                       Ok (impact_order impact, x)) l = Ok keyed.
Proof.
  induction 1 as [|x l (_ & [i Hi] & _) _ [keyed IH]].
  - by eexists.
  - cbn [traverse]. rewrite IH. unfold item. rewrite Hi. by eexists.
Qed.

(** X17. [generate_sales_insights] raises [KeyError] for
    [recommendation] whenever the generators return insights that all
    have [type], [impact], [title] and [insight] but one of which has no
    [recommendation], as the "Customer Loyalty" insight has not (its key is
    spelled [recommight]). *)
Theorem sales_insights_need_recommendation (now : string)
    (trend product customer : list Insight) :
  Forall has_entry_keys (trend ++ product ++ customer) ->
  ~ recommended (trend ++ product ++ customer) ->
  generate_sales_insights now (Ok trend) (Ok product) (Ok customer) =
  Raise (KeyError "recommendation").
Proof.
  intros Hall Hlack. unfold generate_sales_insights.
  destruct (generate_all_insights (Ok trend) (Ok product) (Ok customer))
    as [sorted|e] eqn:Egen.
  - cbn [mbind result_bind].
    assert (Hperm : sorted ≡ₚ trend ++ product ++ customer).
    { unfold generate_all_insights, sort_by_impact in Egen.
      cbn [mbind result_bind] in Egen. bind_inv Egen keyed Hkeyed.
      injection Egen as <-. apply InsightSort.keyed_insights in Hkeyed as ->.
      rewrite InsightSort.sort_perm, <- list_fmap_compose.
      by rewrite (list_fmap_ext (snd ∘ ranked) id), list_fmap_id. }
    destruct (append_report_raises now sorted) as [_ Hraise];
      [by rewrite Hperm|].
    rewrite Hraise; [done|]. unfold recommended. by rewrite Hperm.
  - exfalso. unfold generate_all_insights, sort_by_impact in Egen.
    cbn [mbind result_bind] in Egen.
    destruct (keyed_returns _ Hall) as [keyed Hkeyed].
    by rewrite Hkeyed in Egen.
Qed.

End Render.

End InsightReport.

(** ** Sample insights *)

Example sample_all_insights_order :
  sample_all_insights =
  [decline_insight; best_month_insight;
   loyalty_insight "Only 12.5% of customers make repeat purchases";
   underperformer_insight].
Proof. by_vm. Qed.

Example sample_report :
  @format_insights_report toy_python "2024-11-30 09:00:00" [decline_insight] =
  Ok ("# Sales Data Insights Report" +:+ nl +:+ nl
      +:+ "Generated on: 2024-11-30 09:00:00" +:+ nl +:+ nl
      +:+ "## Trend Insights" +:+ nl +:+ nl
      +:+ "### 🚨 Year-over-Year Decline" +:+ nl
      +:+ "**Insight:** Sales declined by 3.2% compared to previous year" +:+ nl +:+ nl
      +:+ "**Recommendation:** Urgent action needed to reverse declining trend" +:+ nl +:+ nl
      +:+ "**Impact Level:** Critical" +:+ nl +:+ nl
      +:+ "---" +:+ nl +:+ nl).
Proof. vm_compute. reflexivity. Qed.

Lemma sample_entry_keys :
  Forall has_entry_keys
    ([best_month_insight; decline_insight] ++ [underperformer_insight]
     ++ [loyalty_insight "Only 12.5% of customers make repeat purchases"]).
Proof. repeat constructor; by eexists. Qed.

Lemma loyalty_not_recommended (l1 l2 : list Insight) (sentence : string) :
  ~ recommended (l1 ++ loyalty_insight sentence :: l2).
Proof.
  intros Hrec. apply Forall_app in Hrec as [_ Hrec].
  apply Forall_cons in Hrec as [[v Hv] _]. by vm_compute in Hv.
Qed.

Lemma all_insights_sorted_by_impact_witness :
  sample_all_insights ≡ₚ
    [best_month_insight; decline_insight] ++ [underperformer_insight]
    ++ [loyalty_insight "Only 12.5% of customers make repeat purchases"] /\
  StronglySorted rank_le sample_all_insights /\
  forall k : nat,
    filter (fun x => rank_of x = k) sample_all_insights =
    filter (fun x => rank_of x = k)
      ([best_month_insight; decline_insight] ++ [underperformer_insight]
       ++ [loyalty_insight "Only 12.5% of customers make repeat purchases"]).
Proof.
  apply InsightSort.all_insights_sorted_by_impact. by_vm.
Defined.

Lemma report_needs_recommendation_witness :
  (recommended [decline_insight] ->
   exists report,
     @format_insights_report toy_python "2024-11-30 09:00:00" [decline_insight]
     = Ok report) /\
  @format_insights_report toy_python "2024-11-30 09:00:00"
    [decline_insight;
     loyalty_insight "Only 12.5% of customers make repeat purchases"]
  = Raise (KeyError "recommendation").
Proof.
  split.
  - apply (@InsightReport.report_needs_recommendation toy_python).
    repeat constructor; by eexists.
  - apply (@InsightReport.report_needs_recommendation toy_python).
    + repeat constructor; by eexists.
    + apply (loyalty_not_recommended [decline_insight] []).
Defined.

Lemma sales_insights_need_recommendation_witness :
  @generate_sales_insights toy_python "2024-11-30 09:00:00"
    (Ok [best_month_insight; decline_insight]) (Ok [underperformer_insight])
    (Ok [loyalty_insight "Only 12.5% of customers make repeat purchases"])
  = Raise (KeyError "recommendation").
Proof.
  apply (@InsightReport.sales_insights_need_recommendation toy_python).
  - exact sample_entry_keys.
  - apply (loyalty_not_recommended
             [best_month_insight; decline_insight; underperformer_insight] []).
Defined.

(** ** The sections of the report *)

Module InsightGroups.

Lemma filter_snoc (t : string) (seen : list Insight) (x : Insight) :
  filter (fun y => y !! "type" = Some t) (seen ++ [x]) =
  filter (fun y => y !! "type" = Some t) seen
  ++ (if decide (x !! "type" = Some t) then [x] else []).
Proof.
  rewrite filter_app, filter_cons, filter_nil. by case_decide.
Qed.

Lemma filter_unseen (t : string) (keys : list string) (seen : list Insight) :
  Forall (typed_in keys) seen ->
  t ∉ keys ->
  filter (fun y => y !! "type" = Some t) seen = [].
Proof.
  intros Hseen Hout.
  induction Hseen as [|y seen (ty & Hy & Hty) _ IHs]; [done|].
  rewrite filter_cons. destruct (decide (y !! "type" = Some t)) as [Hyt|_]; [|done].
  rewrite Hy in Hyt. injection Hyt as ->. done.
Qed.

Lemma add_to_type_keys t x acc :
  (add_to_type t x acc).*1 =
  if decide (t ∈ acc.*1) then acc.*1 else acc.*1 ++ [t].
Proof.
  induction acc as [|[t' xs] acc IH]; cbn [add_to_type].
  - destruct (decide (t ∈ _)) as [Hin|_]; [by apply elem_of_nil in Hin|reflexivity].
  - destruct (String.eqb t t') eqn:E.
    + apply String.eqb_eq in E as ->. rewrite !fmap_cons. cbn [fst].
      destruct (decide (t' ∈ t' :: acc.*1)) as [_|Hout]; [done|].
      destruct Hout. left.
    + apply String.eqb_neq in E. rewrite !fmap_cons, IH. cbn [fst].
      destruct (decide (t ∈ acc.*1)) as [Hin|Hout];
        destruct (decide (t ∈ t' :: acc.*1)) as [Hin'|Hout']; try done.
      * destruct Hout'. by right.
      * apply elem_of_cons in Hin' as [?|?]; done.
Qed.

Lemma add_to_type_sections t x acc seen :
  x !! "type" = Some t ->
  NoDup acc.*1 ->
  Forall (section_of seen) acc ->
  (t ∉ acc.*1 -> filter (fun y => y !! "type" = Some t) seen = []) ->
  Forall (section_of (seen ++ [x])) (add_to_type t x acc).
Proof.
  intros Hx. induction acc as [|[t' xs] acc IH]; intros Hnd Hacc Hnew; simpl.
  - constructor; [|constructor]. split; [done|]. simpl.
    rewrite filter_snoc, decide_True by done.
    rewrite Hnew; [done|]. apply not_elem_of_nil.
  - simpl in Hnd. apply NoDup_cons in Hnd as [Hnotin Hnd].
    apply Forall_cons in Hacc as [[Hne Hxs] Hacc]. simpl in *.
    destruct (String.eqb t t') eqn:E.
    + apply String.eqb_eq in E as <-. constructor.
      * split; simpl; [by destruct xs|].
        by rewrite filter_snoc, decide_True, <- Hxs.
      * apply Forall_forall. intros g Hg.
        eapply Forall_forall in Hacc as [Hgne Hgxs]; [|exact Hg].
        split; [done|]. rewrite filter_snoc, decide_False, app_nil_r; [done|].
        rewrite Hx. intros [= ->]. apply Hnotin.
        apply list_elem_of_fmap. by exists g.
    + apply String.eqb_neq in E. constructor.
      * split; simpl; [done|].
        rewrite filter_snoc, decide_False, app_nil_r; [done|].
        rewrite Hx. by intros [= ->].
      * apply IH; [done..|]. intros Hout. apply Hnew.
        rewrite elem_of_cons. tauto.
Qed.

Lemma group_by_type_sections acc seen insights groups :
  group_by_type acc insights = Ok groups ->
  NoDup acc.*1 ->
  Forall (section_of seen) acc ->
  Forall (typed_in acc.*1) seen ->
  NoDup groups.*1 /\ Forall (section_of (seen ++ insights)) groups.
Proof.
  revert acc seen. induction insights as [|x rest IH];
    intros acc seen H Hnd Hacc Hseen; simpl in H.
  - injection H as <-. by rewrite app_nil_r.
  - bind_inv H t Ht. unfold item in Ht.
    destruct (x !! "type") as [t'|] eqn:Ex; [|done]. injection Ht as ->.
    rewrite (assoc_L (++) seen [x] rest : seen ++ x :: rest = (seen ++ [x]) ++ rest).
    apply (IH _ _ H).
    + rewrite add_to_type_keys. case_decide as Hin; [done|].
      apply NoDup_app. split; [done|]. split.
      * intros k Hk Hk'. apply list_elem_of_singleton in Hk' as ->. done.
      * apply NoDup_singleton.
    + apply add_to_type_sections; try done. intros Hout.
      by apply (filter_unseen _ acc.*1).
    + rewrite add_to_type_keys. apply Forall_app. split.
      * eapply Forall_impl; [exact Hseen|]. intros y (ty & Hy & Hty).
        exists ty. split; [done|]. case_decide; [done|].
        apply elem_of_app. by left.
      * constructor; [|constructor]. exists t. split; [done|].
        case_decide; [done|]. apply elem_of_app. right. left.
Qed.

Section Sections.
Context `{py : Python}.

(** X18. A report that [format_insights_report] returns for a non-empty
    list is the head followed by the sections of a grouping in which the
    types are distinct, every section holds, in input order, exactly the
    insights of its type (at least one), and every insight of the input
    occurs once. *)
Theorem report_sections (now : string) (insights : list Insight)
    (report : string) :
  insights <> [] ->
  format_insights_report now insights = Ok report ->
  exists groups : list (string * list Insight),
    append_sections (report_head now) groups = Ok report /\
    NoDup groups.*1 /\
    Forall (section_of insights) groups /\
    members groups ≡ₚ insights.
Proof.
  intros Hne H. destruct insights as [|x rest]; [done|].
  unfold format_insights_report in H. bind_inv H groups Hgroups.
  exists groups. split; [exact H|].
  destruct (group_by_type_sections [] [] (x :: rest) groups Hgroups)
    as [Hnd Hsec]; [constructor..|].
  split; [done|]. split; [done|].
  by rewrite (InsightReport.group_by_type_members _ _ _ Hgroups).
Qed.

End Sections.

End InsightGroups.

Lemma report_sections_witness :
  exists groups : list (string * list Insight),
    @append_sections toy_python (report_head "2024-11-30 09:00:00") groups
      = Ok sample_report_text /\
    NoDup groups.*1 /\
    Forall (section_of [best_month_insight; underperformer_insight; decline_insight])
           groups /\
    members groups ≡ₚ
      [best_month_insight; underperformer_insight; decline_insight].
Proof.
  apply (@InsightGroups.report_sections toy_python).
  - discriminate.
  - by_vm.
Defined.

(** ** The report of an empty list *)

Module InsightEmpty.



Section Prefix.
Context `{py : Python}.





End Prefix.

End InsightEmpty.

